(** * Flow-field tracer of the Lightfast brand scripts

    A shallow embedding of the flow-field core shared by the generative
    scripts of the repository:

    - the flow-field sketch (multi-octave noise angle, spawn patterns
      [grid], [center], [circle], [random], tracer) : module [FlowField];
    - [sketch-lightfast.js] (radial/spiral blend, [radial-burst] spawn,
      tracer) : module [Lightfast];
    - [sketch-icon.js] (radial blend, tracer) : module [SketchIcon];
    - [export-icon.js] (linear congruential generator, sine noise, radial
      angle, tracer, render pass) : module [ExportIcon].

    JavaScript numbers are IEEE binary64 values: they are modelled by Rocq's
    primitive [float].  The tracer loop and the multi-octave angle only use
    [+ - * /] and [<]; they are written once over an interface [Number], so
    that they run on [float] (the program) and on [Q] (exact arithmetic, used
    for the bound on the normalised octave sum).  [Math.cos], [Math.sin],
    [Math.atan2], [Math.pow] and the functions of [canvas-sketch-util/random]
    live outside the repository: they are fields of interfaces that every
    definition takes as a parameter. *)

From Stdlib Require Import Floats ZArith QArith Qround Lqa String List Bool Lia.
Import ListNotations.

Set Warnings "-inexact-float".
Set Implicit Arguments.
Close Scope Q_scope.

(** ** Numbers *)

Class Number (num : Type) : Type := {
  num_zero : num;
  num_one : num;
  num_add : num -> num -> num;
  num_sub : num -> num -> num;
  num_mul : num -> num -> num;
  num_div : num -> num -> num;
  num_ltb : num -> num -> bool
}.

Declare Scope js_scope.
Delimit Scope js_scope with js.
Notation "x + y" := (num_add x y) : js_scope.
Notation "x - y" := (num_sub x y) : js_scope.
Notation "x * y" := (num_mul x y) : js_scope.
Notation "x / y" := (num_div x y) : js_scope.
Notation "x <? y" := (num_ltb x y) : js_scope.
Notation "x >? y" := (num_ltb y x) : js_scope.

(** The program's numbers: binary64 arithmetic, round to nearest even;
    a comparison with NaN is [false]. *)
#[export] Instance float_Number : Number float := {
  num_zero := 0%float;
  num_one := 1%float;
  num_add := PrimFloat.add;
  num_sub := PrimFloat.sub;
  num_mul := PrimFloat.mul;
  num_div := PrimFloat.div;
  num_ltb := PrimFloat.ltb
}.

(** Exact rational arithmetic: the same operations without rounding. *)
#[export] Instance Q_Number : Number Q := {
  num_zero := 0%Q;
  num_one := 1%Q;
  num_add := Qplus;
  num_sub := Qminus;
  num_mul := Qmult;
  num_div := Qdiv;
  num_ltb := fun a b => negb (Qle_bool b a)
}.

(** ** Points and polylines: the objects [{ x, y }] pushed by the scripts *)

Record Point (num : Type) : Type := mkPoint { px : num; py : num }.

Definition Polyline (num : Type) : Type := list (Point num).

(** ** Library interfaces *)

(** The part of the [Math] object that has no counterpart in Rocq. *)
Class MathObj (num : Type) : Type := {
  Math_cos : num -> num;
  Math_sin : num -> num;
  Math_atan2 : num -> num -> num;
  Math_pow : num -> num -> num
}.

(** [random.noise2D] and [random.noise3D] of canvas-sketch-util: once the
    seed is set they are functions of the coordinates. *)
Class NoiseLib (num : Type) : Type := {
  noise2D : num -> num -> num;
  noise3D : num -> num -> num -> num
}.

(** ** State passing for the pseudo-random generators *)

Definition State (St A : Type) : Type := St -> A * St.

Definition ret {St A : Type} (a : A) : State St A := fun s => (a, s).

Definition bind {St A B : Type} (m : State St A) (k : A -> State St B) : State St B :=
  fun s => let (a, s') := m s in k a s'.

Notation "x <- m ;; k" := (bind m (fun x => k))
  (at level 61, m at next level, right associativity).

(** [random.value()] and [random.gaussian(mean, std)]: each call advances the
    generator hidden in the library. *)
Class RandomLib (rng : Type) : Type := {
  random_value : State rng float;
  random_gaussian : float -> float -> State rng float
}.

(** ** The tracer loop

    All four tracers run the same loop:
<<
  for (let i = 0; i < params.lineLength; i++) {
    points.push({ x, y });
    const angle = getFlowAngle(x, y, ...);
    x += Math.cos(angle) * params.stepSize;
    y += Math.sin(angle) * params.stepSize;
    if (x < minX || x > maxX || y < minY || y > maxY) break;
  }
>>
    The recursion is on the number of iterations left; [angleAt] is the
    script's [getFlowAngle] and [outside] its exit test. *)

Section FlowLoop.
Context {num : Type} {N : Number num} {M : MathObj num}.
Variable angleAt : num -> num -> num.
Variable stepSize : num.
Variable outside : num -> num -> bool.
Local Open Scope js_scope.

(** One advance of the cursor. *)
Definition advance (p : Point num) : Point num :=
  let angle := angleAt (px p) (py p) in
  mkPoint (px p + Math_cos angle * stepSize) (py p + Math_sin angle * stepSize).

Definition exits (p : Point num) : bool := outside (px p) (py p).

Fixpoint flowLoop (steps : nat) (x y : num) : Polyline num :=
  match steps with
  | O => []
  | S steps' =>
      let angle := angleAt x y in
      let x' := x + Math_cos angle * stepSize in
      let y' := y + Math_sin angle * stepSize in
      mkPoint x y :: (if outside x' y' then [] else flowLoop steps' x' y')
  end.

(** What the loop guarantees about the length of its result:
    - it has at most [steps] points;
    - the advance from every point but the last stayed inside;
    - when it has fewer than [steps] points, the advance from its last
      point left the region. *)
Definition LengthLaw (steps : nat) (t : Polyline num) : Prop :=
  (length t <= steps)%nat /\
  (forall i q, nth_error t i = Some q -> (S i < length t)%nat ->
               exits (advance q) = false) /\
  ((length t < steps)%nat ->
   exists q, nth_error t (length t - 1) = Some q /\ exits (advance q) = true).

(** What the loop guarantees about the start of its result:
    - the start is the first point, pushed before any test;
    - the result is the start alone when the first advance leaves the
      region;
    - otherwise, with at least two steps allowed, it has a second
      point. *)
Definition StartLaw (steps : nat) (x y : num) (t : Polyline num) : Prop :=
  (exists rest, t = mkPoint x y :: rest) /\
  (exits (advance (mkPoint x y)) = true -> t = [mkPoint x y]) /\
  (exits (advance (mkPoint x y)) = false -> (2 <= steps)%nat -> (2 <= length t)%nat).

(** No advance of the cursor from a recorded point leaves the region. *)
Definition NeverExits (t : Polyline num) : Prop :=
  forall q, In q t -> exits (advance q) = false.

End FlowLoop.

(** ** The computable part of [Math] on binary64 values *)

Definition Math_PI : float := 3.141592653589793%float.

(** The double nearest to an integer. *)
Definition Z2F (z : Z) : float := SF2Prim (binary_normalize prec emax z 0 false).

(** The value of a loop counter or of an integer argument as a double. *)
Definition of_nat (n : nat) : float := Z2F (Z.of_nat n).

(** [Math.floor]: zeros, infinities and NaN are returned unchanged. *)
Definition Math_floor (f : float) : float :=
  match Prim2SF f with
  | S754_finite s m e =>
      if (0 <=? e)%Z then f
      else Z2F (Z.shiftr (if s then Z.neg m else Z.pos m) (- e))
  | _ => f
  end.

(** [Math.ceil(x)] is [-Math.floor(-x)], signed zeros included. *)
Definition Math_ceil (f : float) : float := (- Math_floor (- f))%float.

(** [Math.sqrt]: the correctly rounded square root. *)
Definition Math_sqrt (f : float) : float := PrimFloat.sqrt f.

(** [Math.min] of two numbers: NaN if either is NaN, and [-0 < +0]. *)
Definition Math_min (a b : float) : float :=
  if is_nan a || is_nan b then nan
  else if (a <? b)%float then a
  else if (b <? a)%float then b
  else if get_sign a then a else b.

(** The remainder operator [%]: exact, with the sign of the dividend. *)
Definition js_rem (a b : float) : float :=
  match Prim2SF a, Prim2SF b with
  | S754_nan, _ | _, S754_nan => nan
  | S754_infinity _, _ => nan
  | _, S754_zero _ => nan
  | S754_zero _, _ => a
  | _, S754_infinity _ => a
  | S754_finite sa ma ea, S754_finite sb mb eb =>
      let e := Z.min ea eb in
      let r := (Z.shiftl (Z.pos ma) (ea - e) mod Z.shiftl (Z.pos mb) (eb - e))%Z in
      if (r =? 0)%Z then (if sa then (-0)%float else 0%float)
      else SF2Prim (binary_normalize prec emax (if sa then (- r)%Z else r) e false)
  end.

(** The number of iterations of [for (let i = 0; i < c; i++)] for a double
    [c]: the least integer that is not below [c], none when [c] is not
    positive or is NaN.  (Counters stay exact below 2^53; the bounds met
    here are floors of finite products, never infinite.) *)
Definition loopCount (c : float) : nat :=
  match Prim2SF c with
  | S754_finite false m e =>
      Z.to_nat (if (0 <=? e)%Z then Z.shiftl (Z.pos m) e
                else (- Z.shiftr (Z.neg m) (- e))%Z)
  | _ => O
  end.

(** A counted loop whose body pushes one element per iteration:
    [for (let i = start; i < start + n; i++) positions.push(body(i))]. *)
Fixpoint forPush {St A : Type} (n : nat) (i : nat) (body : nat -> State St A)
  : State St (list A) :=
  match n with
  | O => ret []
  | S n' => a <- body i ;; rest <- forPush n' (S i) body ;; ret (a :: rest)
  end.

(** ** The flow-field sketch: multi-octave noise, spawn patterns, tracer *)

Module FlowField.

(** The fields of [params] that the flow-field functions read.
    [lineLength] and [flowOctaves] bound counted loops and [lineCount] is
    the requested number of lines: natural numbers. *)
Record Params (num : Type) : Type := {
  lineCount : nat;
  lineLength : nat;
  stepSize : num;
  noiseScale : num;
  noiseAmplitude : num;
  margin : num;
  spawnPattern : string;
  flowOctaves : nat;
  flowLacunarity : num;
  flowPersistence : num
}.

(** The table of the script. *)
Definition params : Params float := {|
  lineCount := 800;
  lineLength := 80;
  stepSize := 2%float;
  noiseScale := 0.002%float;
  noiseAmplitude := (Math_PI * 2)%float;
  margin := 0.1%float;
  spawnPattern := "random";
  flowOctaves := 3;
  flowLacunarity := 2.0%float;
  flowPersistence := 0.5%float
|}.

Section Field.
Context {num : Type} {N : Number num} {M : MathObj num} {L : NoiseLib num}.
Variable p : Params num.
Local Open Scope js_scope.

(** The body of [getFlowAngle]'s loop, with its four accumulators;
    [n] is the number of octaves left.  The result is the pair
    [(angle, maxAmplitude)] at loop exit. *)
Fixpoint octaveLoop (n : nat) (x y time : num)
         (angle amplitude frequency maxAmplitude : num) : num * num :=
  match n with
  | O => (angle, maxAmplitude)
  | S n' =>
      octaveLoop n' x y time
        (angle + noise3D (x * frequency) (y * frequency) time * amplitude)
        (amplitude * flowPersistence p)
        (frequency * flowLacunarity p)
        (maxAmplitude + amplitude)
  end.

Definition getFlowAngle (x y time : num) : num :=
  let (angle, maxAmplitude) :=
    octaveLoop (flowOctaves p) x y time num_zero num_one (noiseScale p) num_zero in
  (angle / maxAmplitude) * noiseAmplitude p.

(** The exit test of [traceFlowLine]. *)
Definition outOfBounds (width height margin x y : num) : bool :=
  let minX := width * margin in
  let maxX := width * (num_one - margin) in
  let minY := height * margin in
  let maxY := height * (num_one - margin) in
  (x <? minX) || (x >? maxX) || (y <? minY) || (y >? maxY).

(** [getFlowAngle(x, y)]: the default [time = 0]. *)
Definition traceFlowLine (startX startY width height margin : num) : Polyline num :=
  flowLoop (fun x y => getFlowAngle x y num_zero) (stepSize p)
           (outOfBounds width height margin) (lineLength p) startX startY.

(** *** The octave sum in the words of the specification *)

(** Frequency of layer [i]: the base scale, multiplied by the
    lacunarity at each layer. *)
Definition frequencyAt (i : nat) : num :=
  Nat.iter i (fun f => f * flowLacunarity p) (noiseScale p).

(** Amplitude of layer [i]: 1, multiplied by the persistence at each
    layer. *)
Definition amplitudeAt (i : nat) : num :=
  Nat.iter i (fun a => a * flowPersistence p) num_one.

(** Sum of [term i] for [i] from [from] on, [k] terms, added to [acc]
    in increasing order of [i]. *)
Definition sumFrom (term : nat -> num) (from k : nat) (acc : num) : num :=
  fold_left (fun s i => s + term i) (seq from k) acc.

Definition layer (x y time : num) (i : nat) : num :=
  noise3D (x * frequencyAt i) (y * frequencyAt i) time * amplitudeAt i.

Definition octaveFormula (x y time : num) : num :=
  (sumFrom (layer x y time) 0 (flowOctaves p) num_zero
     / sumFrom amplitudeAt 0 (flowOctaves p) num_zero) * noiseAmplitude p.

End Field.

(** *** Spawn positions *)

(** The [grid] case of [generateSpawnPositions]: it draws no random
    number. *)
Definition gridPositions (width height : float) (count : nat) (margin : float)
  : list (Point float) :=
  let innerWidth := (width * (1 - margin * 2))%float in
  let innerHeight := (height * (1 - margin * 2))%float in
  let offsetX := (width * margin)%float in
  let offsetY := (height * margin)%float in
  let cols := Math_ceil (Math_sqrt (of_nat count)) in
  let rows := Math_ceil (of_nat count / cols)%float in
  map (fun i =>
         let col := js_rem (of_nat i) cols in
         let row := Math_floor (of_nat i / cols)%float in
         mkPoint (offsetX + (col / (cols - 1)) * innerWidth)%float
                 (offsetY + (row / (rows - 1)) * innerHeight)%float)
      (seq 0 count).

Section Spawn.
Context {M : MathObj float} {rng : Type} {R : RandomLib rng}.
Variable p : Params float.
Local Open Scope float_scope.

Definition generateSpawnPositions (width height : float) (count : nat) (margin : float)
  : State rng (list (Point float)) :=
  let innerWidth := width * (1 - margin * 2) in
  let innerHeight := height * (1 - margin * 2) in
  let offsetX := width * margin in
  let offsetY := height * margin in
  if String.eqb (spawnPattern p) "grid" then
    ret (gridPositions width height count margin)
  else if String.eqb (spawnPattern p) "center" then
    let centerX := width / 2 in
    let centerY := height / 2 in
    let maxRadius := Math_min innerWidth innerHeight / 2 in
    forPush count 0 (fun i =>
      v1 <- random_value ;;
      let r := v1 * maxRadius in
      v2 <- random_value ;;
      let theta := v2 * Math_PI * 2 in
      ret (mkPoint (centerX + Math_cos theta * r) (centerY + Math_sin theta * r)))
  else if String.eqb (spawnPattern p) "circle" then
    let cx := width / 2 in
    let cy := height / 2 in
    let radius := Math_min innerWidth innerHeight * 0.4 in
    forPush count 0 (fun i =>
      let angle := (of_nat i / of_nat count) * Math_PI * 2 in
      jitter <- random_gaussian 0 10 ;;
      ret (mkPoint (cx + Math_cos angle * (radius + jitter))
                   (cy + Math_sin angle * (radius + jitter))))
  else
    forPush count 0 (fun i =>
      v1 <- random_value ;;
      v2 <- random_value ;;
      ret (mkPoint (offsetX + v1 * innerWidth) (offsetY + v2 * innerHeight))).

End Spawn.

End FlowField.

(** ** sketch-lightfast.js: radial burst with spiral twist *)

Module Lightfast.

Record Params : Type := {
  lineCount : nat;
  lineLength : nat;
  stepSize : float;
  noiseScale : float;
  noiseAmplitude : float;
  margin : float;
  spawnPattern : string;
  radialInfluence : float;
  spiralTwist : float
}.

Definition params : Params := {|
  lineCount := 600;
  lineLength := 100;
  stepSize := 3%float;
  noiseScale := 0.0015%float;
  noiseAmplitude := (Math_PI * 1.5)%float;
  margin := 0.08%float;
  spawnPattern := "radial-burst";
  radialInfluence := 0.4%float;
  spiralTwist := 0.2%float
|}.

(** A spawn position [{ x, y, ring }]. *)
Record RingPoint : Type := mkRingPoint { pos : Point float; ring : nat }.

Section Sketch.
Context {M : MathObj float} {L : NoiseLib float} {rng : Type} {R : RandomLib rng}.
Variable p : Params.
Local Open Scope float_scope.

Definition getFlowAngle (x y width height : float) : float :=
  let centerX := width / 2 in
  let centerY := height / 2 in
  let dx := x - centerX in
  let dy := y - centerY in
  let radialAngle := Math_atan2 dy dx in
  let maxDist := Math_sqrt (centerX * centerX + centerY * centerY) in
  let dist := Math_sqrt (dx * dx + dy * dy) in
  let normalizedDist := dist / maxDist in
  let noiseAngle := noise2D (x * noiseScale p) (y * noiseScale p) * noiseAmplitude p in
  let radialWeight := radialInfluence p * (1 - normalizedDist * 0.5) in
  let spiralAngle := normalizedDist * spiralTwist p * Math_PI in
  radialAngle * radialWeight + noiseAngle * (1 - radialWeight) + spiralAngle.

(** The particles of one ring: the inner loop runs while
    [i < particleCount && positions.length < count], and each iteration
    pushes one position, so it runs [min particleCount (count - length)]
    times. *)
Definition ringParticles (count : nat) (maxRadius centerX centerY particlesPerRing : float)
           (ring : nat) (positions : list RingPoint) : State rng (list RingPoint) :=
  let rings := 12 in
  let ringRadius := maxRadius * Math_pow ((of_nat ring + 1) / rings) 0.7 in
  let particleCount := Math_floor (particlesPerRing * (1 + of_nat ring * 0.3)) in
  forPush (Nat.min (loopCount particleCount) (count - length positions)) 0 (fun i =>
    g <- random_gaussian 0 0.1 ;;
    let angle := (of_nat i / particleCount) * Math_PI * 2 + g in
    jitter <- random_gaussian 0 (ringRadius * 0.1) ;;
    ret (mkRingPoint
           (mkPoint (centerX + Math_cos angle * (ringRadius + jitter))
                    (centerY + Math_sin angle * (ringRadius + jitter)))
           ring)).

(** [for (let ring = ...; ring < rings; ring++)], [n] rings left. *)
Fixpoint ringLoop (n : nat) (count : nat) (maxRadius centerX centerY particlesPerRing : float)
         (ring : nat) (positions : list RingPoint) : State rng (list RingPoint) :=
  match n with
  | O => ret positions
  | S n' =>
      new <- ringParticles count maxRadius centerX centerY particlesPerRing ring positions ;;
      ringLoop n' count maxRadius centerX centerY particlesPerRing (S ring)
               (positions ++ new)
  end.

Definition generateSpawnPositions (width height : float) (count : nat)
  : State rng (list RingPoint) :=
  let centerX := width / 2 in
  let centerY := height / 2 in
  let margin := margin p in
  let maxRadius := Math_min width height * (0.5 - margin) in
  if String.eqb (spawnPattern p) "radial-burst" then
    let particlesPerRing := Math_floor (of_nat count / 12) in
    positions <- ringLoop 12 count maxRadius centerX centerY particlesPerRing 0 [] ;;
    let centerCount := Math_floor (of_nat count * 0.1) in
    extra <- forPush (loopCount centerCount) 0 (fun i =>
      v1 <- random_value ;;
      let r := v1 * maxRadius * 0.3 in
      v2 <- random_value ;;
      let theta := v2 * Math_PI * 2 in
      ret (mkRingPoint
             (mkPoint (centerX + Math_cos theta * r) (centerY + Math_sin theta * r))
             0)) ;;
    ret (firstn count (positions ++ extra))
  else
    ret (firstn count []).

Definition outOfBounds (width height x y : float) : bool :=
  let margin := margin p in
  let minX := width * margin in
  let maxX := width * (1 - margin) in
  let minY := height * margin in
  let maxY := height * (1 - margin) in
  (x <? minX) || (maxX <? x) || (y <? minY) || (maxY <? y).

Definition traceFlowLine (startX startY width height : float) : Polyline float :=
  flowLoop (fun x y => getFlowAngle x y width height) (stepSize p)
           (outOfBounds width height) (lineLength p) startX startY.

End Sketch.

(** *** How many positions the radial burst produces *)

(** Length of [positions] after the ring loop, from its length before:
    the same counts as [ringLoop], without the positions. *)
Fixpoint ringTotal (n : nat) (count : nat) (particlesPerRing : float)
         (ring : nat) (len : nat) : nat :=
  match n with
  | O => len
  | S n' =>
      let particleCount :=
        Math_floor (particlesPerRing * (1 + of_nat ring * 0.3))%float in
      ringTotal n' count particlesPerRing (S ring)
                (len + Nat.min (loopCount particleCount) (count - len))
  end.

Definition burstLength (count : nat) : nat :=
  Nat.min count
    (ringTotal 12 count (Math_floor (of_nat count / 12)%float) 0 0
     + loopCount (Math_floor (of_nat count * 0.1)%float)).

End Lightfast.

(** ** sketch-icon.js: radial blend with a constant weight *)

Module SketchIcon.

Record Params : Type := {
  lineCount : nat;
  noiseScale : float;
  noiseStrength : float;
  lineLength : nat;
  stepSize : float;
  margin : float;
  radialStrength : float
}.

Definition params : Params := {|
  lineCount := 5;
  noiseScale := 0.003%float;
  noiseStrength := (Math_PI * 0.8)%float;
  lineLength := 60;
  stepSize := 8%float;
  margin := 0.12%float;
  radialStrength := 0.6%float
|}.

Section Sketch.
Context {M : MathObj float} {L : NoiseLib float} {rng : Type} {R : RandomLib rng}.
Variable p : Params.
Local Open Scope float_scope.

Definition getFlowAngle (x y width height : float) : float :=
  let cx := width / 2 in
  let cy := height / 2 in
  let dx := x - cx in
  let dy := y - cy in
  let radialAngle := Math_atan2 dy dx in
  let noise := noise2D (x * noiseScale p) (y * noiseScale p) in
  let noiseAngle := noise * noiseStrength p in
  radialAngle * radialStrength p + noiseAngle * (1 - radialStrength p).

Definition outOfBounds (width height x y : float) : bool :=
  let margin := width * margin p in
  (x <? margin) || (width - margin <? x) || (y <? margin) || (height - margin <? y).

Definition traceLine (startX startY width height : float) : Polyline float :=
  flowLoop (fun x y => getFlowAngle x y width height) (stepSize p)
           (outOfBounds width height) (lineLength p) startX startY.

Definition getSpawnPoints (width height : float) : State rng (list (Point float)) :=
  let cx := width / 2 in
  let cy := height / 2 in
  let radius := width * 0.25 in
  let count := lineCount p in
  forPush count 0 (fun i =>
    let angle := (of_nat i / of_nat count) * Math_PI * 2 - Math_PI / 2 in
    jitter <- random_gaussian 0 0.15 ;;
    v <- random_value ;;
    let r := radius * (0.8 + v * 0.4) in
    ret (mkPoint (cx + Math_cos (angle + jitter) * r)
                 (cy + Math_sin (angle + jitter) * r))).

End Sketch.

End SketchIcon.

(** ** export-icon.js: seeded generator, sine noise, radial angle *)

Module ExportIcon.

(** The module variable [seed]. *)
Definition Seed : Type := float.

Definition initialSeed : Seed := 54321%float.

Definition seededRandom : State Seed float :=
  fun seed =>
    let seed' := js_rem (seed * 1664525 + 1013904223)%float 4294967296%float in
    ((seed' / 4294967296)%float, seed').

Definition resetSeed : State Seed unit := fun _ => (tt, initialSeed).

Record Params : Type := {
  lineCount : nat;
  noiseScale : float;
  noiseStrength : float;
  lineLength : nat;
  stepSize : float;
  margin : float;
  radialStrength : float
}.

Definition params : Params := {|
  lineCount := 5;
  noiseScale := 0.004%float;
  noiseStrength := (Math_PI * 0.4)%float;
  lineLength := 35;
  stepSize := 12%float;
  margin := 0.1%float;
  radialStrength := 0.75%float
|}.

Section Script.
Context {M : MathObj float}.
Variable p : Params.
Local Open Scope float_scope.

Definition noise2D (x y : float) : float :=
  let n := Math_sin (x * 12.9898 + y * 78.233) * 43758.5453 in
  (n - Math_floor n) * 2 - 1.

Definition getFlowAngle (x y width height : float) : float :=
  let cx := width / 2 in
  let cy := height / 2 in
  let dx := x - cx in
  let dy := y - cy in
  let radialAngle := Math_atan2 dy dx in
  let dist := Math_sqrt (dx * dx + dy * dy) in
  let maxDist := Math_sqrt (cx * cx + cy * cy) in
  let normDist := dist / maxDist in
  let noiseVal := noise2D (x * noiseScale p) (y * noiseScale p) in
  let noiseAngle := noiseVal * noiseStrength p * normDist in
  radialAngle + noiseAngle * (1 - radialStrength p).

Definition outOfBounds (width height x y : float) : bool :=
  let margin := width * margin p in
  (x <? margin) || (width - margin <? x) || (y <? margin) || (height - margin <? y).

Definition traceLine (startX startY width height : float) : Polyline float :=
  flowLoop (fun x y => getFlowAngle x y width height) (stepSize p)
           (outOfBounds width height) (lineLength p) startX startY.

Definition getSpawnPoints (width height : float) : State Seed (list (Point float)) :=
  let cx := width / 2 in
  let cy := height / 2 in
  let radius := width * 0.15 in
  let count := lineCount p in
  let startAngle := - Math_PI * 0.6 in
  forPush count 0 (fun i =>
    let angle := startAngle + (of_nat i / of_nat count) * Math_PI * 2 in
    v <- seededRandom ;;
    let r := radius * (0.8 + v * 0.4) in
    ret (mkPoint (cx + Math_cos angle * r) (cy + Math_sin angle * r))).

(** The geometry of one render pass ([renderIcon] and [generateSVG]
    alike): the seed is reset, the spawn points are drawn on the 512
    design square, each is traced, and the polylines with at least two
    points are handed to the painter. *)
Definition renderLines : State Seed (list (Polyline float)) :=
  _ <- resetSeed ;;
  spawns <- getSpawnPoints 512 512 ;;
  ret (filter (fun points => 2 <=? length points)%nat
              (map (fun spawn => traceLine (px spawn) (py spawn) 512 512) spawns)).

End Script.

End ExportIcon.

(** ** Libraries and tables used to run the scripts on concrete inputs *)

(** A [Math] object that holds the values ECMAScript prescribes for
    special arguments ([cos(±0) = 1], [sin(±0) = ±0], [atan2(±0, x) = ±π]
    for [x < 0], with the double [Math.PI] for π, and [atan2(±0, x) = ±0]
    for [x > 0]) and NaN wherever the standard leaves the value to the
    implementation. *)
Definition pinnedMath : MathObj float := {|
  Math_cos := fun a => if (a =? 0)%float then 1%float else nan;
  Math_sin := fun a => if (a =? 0)%float then a else nan;
  Math_atan2 := fun y x =>
    if (y =? 0)%float && (x <? 0)%float
    then (if get_sign y then (- Math_PI)%float else Math_PI)
    else if (y =? 0)%float && (0 <? x)%float then y
    else nan;
  Math_pow := fun _ _ => nan
|}.

(** A noise field that is 0 everywhere. *)
Definition quietNoise : NoiseLib float := {|
  noise2D := fun _ _ => 0%float;
  noise3D := fun _ _ _ => 0%float
|}.

(** The generator of export-icon.js behind the [random] interface; its
    Gaussian draw returns the mean. *)
Definition lcgRandom : RandomLib ExportIcon.Seed := {|
  random_value := ExportIcon.seededRandom;
  random_gaussian := fun mean _ => ret mean
|}.

(** The table of the flow-field sketch with the angle range set to 0 and
    three steps of length 5: whatever finite value the noise takes, the
    angle is 0 and the cursor moves 5 to the right. *)
Definition straightParams : FlowField.Params float := {|
  FlowField.lineCount := 800;
  FlowField.lineLength := 3;
  FlowField.stepSize := 5%float;
  FlowField.noiseScale := 0.002%float;
  FlowField.noiseAmplitude := 0%float;
  FlowField.margin := 0%float;
  FlowField.spawnPattern := "random";
  FlowField.flowOctaves := 3;
  FlowField.flowLacunarity := 2.0%float;
  FlowField.flowPersistence := 0.5%float
|}.

(** [traceFlowLine(0, 5, 10, 10, 0)] and [traceFlowLine(-3, 5, 10, 10, 0)]
    under [straightParams]: the region is the square from 0 to 10. *)
Definition straightTrace : Polyline float :=
  FlowField.traceFlowLine (M := pinnedMath) (L := quietNoise)
                          straightParams 0%float 5%float 10%float 10%float 0%float.

Definition reentrantTrace : Polyline float :=
  FlowField.traceFlowLine (M := pinnedMath) (L := quietNoise)
                          straightParams (-3)%float 5%float 10%float 10%float 0%float.

(** The same table with a step of length 0: a non-positive step size. *)
Definition stuckParams : FlowField.Params float := {|
  FlowField.lineCount := 800;
  FlowField.lineLength := 3;
  FlowField.stepSize := 0%float;
  FlowField.noiseScale := 0.002%float;
  FlowField.noiseAmplitude := 0%float;
  FlowField.margin := 0%float;
  FlowField.spawnPattern := "random";
  FlowField.flowOctaves := 3;
  FlowField.flowLacunarity := 2.0%float;
  FlowField.flowPersistence := 0.5%float
|}.

(** The table of the flow-field sketch with the [grid] pattern selected. *)
Definition gridParams : FlowField.Params float := {|
  FlowField.lineCount := 800;
  FlowField.lineLength := 80;
  FlowField.stepSize := 2%float;
  FlowField.noiseScale := 0.002%float;
  FlowField.noiseAmplitude := (Math_PI * 2)%float;
  FlowField.margin := 0.1%float;
  FlowField.spawnPattern := "grid";
  FlowField.flowOctaves := 3;
  FlowField.flowLacunarity := 2.0%float;
  FlowField.flowPersistence := 0.5%float
|}.

(** A noise field on rationals with values 1 and -1, and the table of the
    flow-field sketch on rationals, with 6 for the angle range. *)
Definition signNoise : NoiseLib Q := {|
  noise2D := fun u _ => if Qle_bool 0 u then 1%Q else (-1)%Q;
  noise3D := fun u _ _ => if Qle_bool 0 u then 1%Q else (-1)%Q
|}.

Definition exactParams : FlowField.Params Q := {|
  FlowField.lineCount := 800;
  FlowField.lineLength := 80;
  FlowField.stepSize := 2%Q;
  FlowField.noiseScale := (2 # 1000)%Q;
  FlowField.noiseAmplitude := 6%Q;
  FlowField.margin := (1 # 10)%Q;
  FlowField.spawnPattern := "random";
  FlowField.flowOctaves := 3;
  FlowField.flowLacunarity := 2%Q;
  FlowField.flowPersistence := (1 # 2)%Q
|}.

(** ** The bounding region in the words of the specification

    A point lies within the region when each coordinate is between the
    bounds, the bounds included. *)
Definition withinRegion (minX maxX minY maxY x y : float) : bool :=
  (minX <=? x)%float && (x <=? maxX)%float && (minY <=? y)%float && (y <=? maxY)%float.

(** ** The radial blend in the words of the specification *)

Definition radialBlend (radialAngle noiseAngle radialWeight : float) : float :=
  (radialAngle * radialWeight + noiseAngle * (1 - radialWeight))%float.

(** Distance from the centre of the canvas, divided by the distance from
    the centre to a corner. *)
Definition normalizedDistance (x y width height : float) : float :=
  (Math_sqrt ((x - width / 2) * (x - width / 2) + (y - height / 2) * (y - height / 2))
   / Math_sqrt (width / 2 * (width / 2) + height / 2 * (height / 2)))%float.

(** ** Outcome of a call

    A JavaScript call returns a value or throws.  The scripts contain no
    [throw] statement and never test their parameter table, and arithmetic
    on numbers does not throw: the calls of the tracer and of the spawn
    generator return. *)

Inductive Outcome (A : Type) : Type :=
| Returned (value : A)
| ConfigurationError.

Arguments ConfigurationError {A}.

Definition traceFlowLineCall {M : MathObj float} {L : NoiseLib float}
           (p : FlowField.Params float) (startX startY width height margin : float)
  : Outcome (Polyline float) :=
  Returned (FlowField.traceFlowLine p startX startY width height margin).

Definition generateSpawnPositionsCall {M : MathObj float} {rng : Type} {R : RandomLib rng}
           (p : Lightfast.Params) (width height : float) (count : nat) (s : rng)
  : Outcome (list Lightfast.RingPoint) :=
  Returned (fst (Lightfast.generateSpawnPositions p width height count s)).

(** Malformed configurations, in the words of the specification: a step
    size that is not positive, a bounding region of size zero, more rings
    (twelve) than requested positions. *)
Definition nonPositiveStep (p : FlowField.Params float) : bool :=
  (FlowField.stepSize p <=? 0)%float.

Definition zeroSizeRegion (width height margin : float) : bool :=
  (width * (1 - margin) =? width * margin)%float
  || (height * (1 - margin) =? height * margin)%float.

Definition moreRingsThanPositions (count : nat) : bool := (count <? 12)%nat.

(** ** Tables that differ in the step budget only *)

Definition flowFieldWithLength {num : Type} (n : nat) (p : FlowField.Params num)
  : FlowField.Params num := {|
  FlowField.lineCount := FlowField.lineCount p;
  FlowField.lineLength := n;
  FlowField.stepSize := FlowField.stepSize p;
  FlowField.noiseScale := FlowField.noiseScale p;
  FlowField.noiseAmplitude := FlowField.noiseAmplitude p;
  FlowField.margin := FlowField.margin p;
  FlowField.spawnPattern := FlowField.spawnPattern p;
  FlowField.flowOctaves := FlowField.flowOctaves p;
  FlowField.flowLacunarity := FlowField.flowLacunarity p;
  FlowField.flowPersistence := FlowField.flowPersistence p
|}.

Definition lightfastWithLength (n : nat) (p : Lightfast.Params) : Lightfast.Params := {|
  Lightfast.lineCount := Lightfast.lineCount p;
  Lightfast.lineLength := n;
  Lightfast.stepSize := Lightfast.stepSize p;
  Lightfast.noiseScale := Lightfast.noiseScale p;
  Lightfast.noiseAmplitude := Lightfast.noiseAmplitude p;
  Lightfast.margin := Lightfast.margin p;
  Lightfast.spawnPattern := Lightfast.spawnPattern p;
  Lightfast.radialInfluence := Lightfast.radialInfluence p;
  Lightfast.spiralTwist := Lightfast.spiralTwist p
|}.

Definition sketchIconWithLength (n : nat) (p : SketchIcon.Params) : SketchIcon.Params := {|
  SketchIcon.lineCount := SketchIcon.lineCount p;
  SketchIcon.noiseScale := SketchIcon.noiseScale p;
  SketchIcon.noiseStrength := SketchIcon.noiseStrength p;
  SketchIcon.lineLength := n;
  SketchIcon.stepSize := SketchIcon.stepSize p;
  SketchIcon.margin := SketchIcon.margin p;
  SketchIcon.radialStrength := SketchIcon.radialStrength p
|}.

Definition exportIconWithLength (n : nat) (p : ExportIcon.Params) : ExportIcon.Params := {|
  ExportIcon.lineCount := ExportIcon.lineCount p;
  ExportIcon.noiseScale := ExportIcon.noiseScale p;
  ExportIcon.noiseStrength := ExportIcon.noiseStrength p;
  ExportIcon.lineLength := n;
  ExportIcon.stepSize := ExportIcon.stepSize p;
  ExportIcon.margin := ExportIcon.margin p;
  ExportIcon.radialStrength := ExportIcon.radialStrength p
|}.

(** The table of the flow-field sketch with no octave at all. *)
Definition noOctaveParams : FlowField.Params float := {|
  FlowField.lineCount := 800;
  FlowField.lineLength := 80;
  FlowField.stepSize := 2%float;
  FlowField.noiseScale := 0.002%float;
  FlowField.noiseAmplitude := (Math_PI * 2)%float;
  FlowField.margin := 0.1%float;
  FlowField.spawnPattern := "random";
  FlowField.flowOctaves := 0;
  FlowField.flowLacunarity := 2.0%float;
  FlowField.flowPersistence := 0.5%float
|}.

(** The step of the generator of export-icon.js on the seed alone. *)
Definition nextSeed (seed : ExportIcon.Seed) : ExportIcon.Seed :=
  snd (ExportIcon.seededRandom seed).

(** ** The 2D drawing context

    The scripts paint through the canvas API, which lives outside the
    repository.  A context is modelled by the calls made on it, property
    assignments included, in the order they are made. *)

Inductive CanvasCall : Type :=
| BeginPath
| MoveTo (x y : float)
| LineTo (x y : float)
| QuadraticCurveTo (cpx cpy x y : float)
| Stroke
| SetStrokeStyle (style : string)
| SetFillStyle (style : string)
| SetLineWidth (w : float)
| SetLineCap (cap : string)
| SetLineJoin (join : string)
| SetGlobalAlpha (alpha : float)
| FillRect (x y w h : float)
| Scale (sx sy : float)
| Save
| Restore.

(** Where a path call leaves the pen. *)
Definition penAfter (c : CanvasCall) : option (Point float) :=
  match c with
  | MoveTo x y | LineTo x y | QuadraticCurveTo _ _ x y => Some (mkPoint x y)
  | _ => None
  end.

(** The straight segments of a list of calls: each [moveTo] that is
    directly followed by a [lineTo]. *)
Fixpoint strokedSegments (calls : list CanvasCall) : list (Point float * Point float) :=
  match calls with
  | MoveTo x0 y0 :: ((LineTo x1 y1 :: _) as rest) =>
      (mkPoint x0 y0, mkPoint x1 y1) :: strokedSegments rest
  | _ :: rest => strokedSegments rest
  | [] => []
  end.

(** Consecutive pairs of a list. *)
Fixpoint consecutive {A : Type} (l : list A) : list (A * A) :=
  match l with
  | a :: ((b :: _) as rest) => (a, b) :: consecutive rest
  | _ => []
  end.

(** ** drawSmoothCurve (export-icon.js and sketch-icon.js, the same text)

    The result is the list of calls made on [ctx], or [None] when the
    function reads a coordinate of [points[i]] for an index outside the
    array (a [TypeError] in JavaScript). *)

(** [for (let i = ...; i < points.length - 1; i++)], [n] iterations left. *)
Fixpoint curveSegments (points : list (Point float)) (n i : nat)
  : option (list CanvasCall) :=
  match n with
  | O => Some []
  | S n' =>
      match nth_error points i, nth_error points (i + 1) with
      | Some p, Some q =>
          let xc := ((px p + px q) / 2)%float in
          let yc := ((py p + py q) / 2)%float in
          match curveSegments points n' (S i) with
          | Some rest => Some (QuadraticCurveTo (px p) (py p) xc yc :: rest)
          | None => None
          end
      | _, _ => None
      end
  end.

Definition drawSmoothCurve (points : list (Point float)) : option (list CanvasCall) :=
  if (length points <? 2)%nat then Some []
  else
    match nth_error points 0 with
    | None => None
    | Some first =>
        let body :=
          if (length points =? 2)%nat then
            match nth_error points 1 with
            | Some second => Some [LineTo (px second) (py second)]
            | None => None
            end
          else
            match curveSegments points (length points - 1 - 1) 1,
                  nth_error points (length points - 1),
                  nth_error points (length points - 2) with
            | Some segments, Some last, Some secondLast =>
                Some (segments ++
                      [QuadraticCurveTo (px secondLast) (py secondLast) (px last) (py last)])
            | _, _, _ => None
            end in
        match body with
        | Some calls => Some (BeginPath :: MoveTo (px first) (py first) :: calls ++ [Stroke])
        | None => None
        end
    end.

(** ** pointsToSVGPath (sketch-icon.js)

    [toFixed] is [Number.prototype.toFixed] with one digit, a built-in. *)

Section SvgPath.
Variable toFixed : float -> string.
Local Open Scope string_scope.

Fixpoint pathSegments (points : list (Point float)) (n i : nat) : option string :=
  match n with
  | O => Some ""
  | S n' =>
      match nth_error points i, nth_error points (i + 1) with
      | Some p, Some q =>
          let xc := toFixed ((px p + px q) / 2)%float in
          let yc := toFixed ((py p + py q) / 2)%float in
          match pathSegments points n' (S i) with
          | Some rest =>
              Some (" Q " ++ toFixed (px p) ++ " " ++ toFixed (py p) ++ " "
                    ++ xc ++ " " ++ yc ++ rest)
          | None => None
          end
      | _, _ => None
      end
  end.

Definition pointsToSVGPath (points : list (Point float)) : option string :=
  if (length points <? 2)%nat then Some ""
  else
    match nth_error points 0, pathSegments points (length points - 1 - 1) 1,
          nth_error points (length points - 1) with
    | Some first, Some segments, Some last =>
        Some ("M " ++ toFixed (px first) ++ " " ++ toFixed (py first)
              ++ segments
              ++ " L " ++ toFixed (px last) ++ " " ++ toFixed (py last))
    | _, _, _ => None
    end.

End SvgPath.

(** ** drawTaperedLine (sketch-lightfast.js) *)

(** [for (let i = ...; i < points.length - 1; i++)], [n] iterations left. *)
Fixpoint taperedSegments (points : list (Point float)) (color : string)
         (maxWidth opacity : float) (n i : nat) : option (list CanvasCall) :=
  match n with
  | O => Some []
  | S n' =>
      let t := (of_nat i / of_nat (length points - 1))%float in
      let width := (maxWidth * (1 - t * 0.8))%float in
      let segmentOpacity := (opacity * (1 - t * 0.5))%float in
      match nth_error points i, nth_error points (i + 1) with
      | Some p, Some q =>
          match taperedSegments points color maxWidth opacity n' (S i) with
          | Some rest =>
              Some ([BeginPath; MoveTo (px p) (py p); LineTo (px q) (py q);
                     SetStrokeStyle color; SetLineWidth width; SetLineCap "round";
                     SetGlobalAlpha segmentOpacity; Stroke] ++ rest)
          | None => None
          end
      | _, _ => None
      end
  end.

Definition drawTaperedLine (points : list (Point float)) (color : string)
           (maxWidth opacity : float) : option (list CanvasCall) :=
  if (length points <? 2)%nat then Some []
  else
    match taperedSegments points color maxWidth opacity (length points - 1) 0 with
    | Some calls => Some (calls ++ [SetGlobalAlpha 1%float])
    | None => None
    end.

(** ** Resuming a trace

    [trace n x y] is a tracer run from [(x, y)] with a budget of [n] steps,
    [step] the advance of its cursor and [leaves] its exit test.  A polyline
    that stopped short of its budget, or whose advance from the last point
    leaves the region, is all a larger budget gives; a full polyline whose
    last advance stays inside is continued by the run from that advance. *)
Definition Resumable {num : Type} (trace : nat -> num -> num -> Polyline num)
           (step : Point num -> Point num) (leaves : Point num -> bool) : Prop :=
  forall n m x y,
    ((length (trace n x y) < n)%nat -> trace (n + m)%nat x y = trace n x y)
    /\ (forall q,
           length (trace n x y) = n ->
           nth_error (trace n x y) (n - 1) = Some q ->
           if leaves (step q)
           then trace (n + m)%nat x y = trace n x y
           else trace (n + m)%nat x y
                = trace n x y ++ trace m (px (step q)) (py (step q))).

(** Consecutive points of a polyline are one [step] apart. *)
Definition Chained {num : Type} (step : Point num -> Point num) (t : Polyline num) : Prop :=
  forall i q q', nth_error t i = Some q -> nth_error t (S i) = Some q' -> q' = step q.

(** ** renderIcon (export-icon.js)

    The fields of [params] that only the painter reads. *)
Record IconStyle : Type := {
  strokeWidthRatio : float;
  backgroundColor : string;
  strokeColor : string
}.

Definition iconStyle : IconStyle := {|
  strokeWidthRatio := 0.045%float;
  backgroundColor := "#0a0a0f";
  strokeColor := "#ffffff"
|}.

(** [spawns.forEach]: each polyline with at least two points is handed to
    [drawSmoothCurve]. *)
Fixpoint drawCurves (lines : list (Polyline float)) : option (list CanvasCall) :=
  match lines with
  | [] => Some []
  | points :: rest =>
      match (if (2 <=? length points)%nat then drawSmoothCurve points else Some []),
            drawCurves rest with
      | Some calls, Some more => Some (calls ++ more)
      | _, _ => None
      end
  end.

(** The calls that depend on the requested size: the background and the
    scale from the 512 design square. *)
Definition iconHeader (st : IconStyle) (size : float) : list CanvasCall :=
  [SetFillStyle (backgroundColor st); FillRect 0 0 size size;
   Scale (size / 512) (size / 512)]%float.

Definition renderIcon {M : MathObj float} (p : ExportIcon.Params) (st : IconStyle)
           (size : float) : State ExportIcon.Seed (option (list CanvasCall)) :=
  _ <- ExportIcon.resetSeed ;;
  spawns <- ExportIcon.getSpawnPoints p 512 512 ;;
  ret (match drawCurves
               (map (fun spawn => ExportIcon.traceLine p (px spawn) (py spawn) 512 512)
                    spawns) with
       | Some strokes =>
           Some (iconHeader st size
                 ++ [SetStrokeStyle (strokeColor st);
                     SetLineWidth (512 * strokeWidthRatio st)%float;
                     SetLineCap "round"; SetLineJoin "round"]
                 ++ strokes)
       | None => None
       end).

(** ** The banner script: stripes drawn from a seeded generator *)

(** [array[index]] for a number [index]: the element when the index is a
    whole number within the array, [undefined] otherwise. *)
Definition arrayGet {A : Type} (l : list A) (index : float) : option A :=
  match Prim2SF index with
  | S754_zero _ => nth_error l 0
  | S754_finite false m e =>
      if (0 <=? e)%Z then nth_error l (Z.to_nat (Z.shiftl (Z.pos m) e))
      else if (Z.land (Z.pos m) (Z.ones (- e)) =? 0)%Z
           then nth_error l (Z.to_nat (Z.shiftr (Z.pos m) (- e)))
           else None
  | _ => None
  end.

Module Banner.

Definition WIDTH : float := 1500%float.
Definition HEIGHT : float := 500%float.

Definition Seed : Type := float.

Definition random : State Seed float :=
  fun seed =>
    let seed' := js_rem (seed * 1664525 + 1013904223)%float 4294967296%float in
    ((seed' / 4294967296)%float, seed').

Definition resetSeed : State Seed unit := fun _ => (tt, 42%float).

Record Params : Type := {
  stripeColors : list string;
  accentColors : list string;
  stripeZoneWidth : float;
  stripeCount : nat;
  minStripeWidth : float;
  maxStripeWidth : float
}.

Definition params : Params := {|
  stripeColors := ["#1a1a1a"; "#2d2d2d"; "#404040"; "#555555";
                   "#707070"; "#909090"; "#b0b0b0"; "#c8c8c8"]%string;
  accentColors := ["#2563eb"; "#f59e0b"]%string;
  stripeZoneWidth := 1.0%float;
  stripeCount := 60;
  minStripeWidth := 2%float;
  maxStripeWidth := 80%float
|}.

(** A stripe [{ x, width, yStart, yEnd, color, opacity }]; the colour is
    [None] when the array lookup gave [undefined]. *)
Record Stripe : Type := {
  x : float;
  width : float;
  yStart : float;
  yEnd : float;
  color : option string;
  opacity : float
}.

Section Stripes.
Variable p : Params.
Local Open Scope float_scope.

(** The body of the [while] loop of [generateStripes].  Each iteration
    pushes one stripe, so the test [stripes.length < params.stripeCount]
    holds as long as [remaining], the difference of the two, is not 0. *)
Fixpoint stripeLoop (remaining : nat) (x : float) (stripes : list Stripe)
  : State Seed (list Stripe) :=
  match remaining with
  | O => ret stripes
  | S remaining' =>
      if x <? WIDTH * stripeZoneWidth p then
        widthRoll <- random ;;
        stripeWidth <-
          (if widthRoll <? 0.2 then r <- random ;; ret (minStripeWidth p + r * 4)
           else if widthRoll <? 0.5 then r <- random ;; ret (8 + r * 20)
           else r <- random ;; ret (30 + r * (maxStripeWidth p - 30))) ;;
        colorRoll <- random ;;
        let colorIndex := Math_floor (colorRoll * of_nat (length (stripeColors p))) in
        accentRoll <- random ;;
        color <-
          (if (accentRoll <? 0.025) && (5 <? length stripes)%nat then
             r <- random ;;
             let accentIndex := Math_floor (r * of_nat (length (accentColors p))) in
             ret (arrayGet (accentColors p) accentIndex)
           else ret (arrayGet (stripeColors p) colorIndex)) ;;
        opacityRoll <- random ;;
        let stripe := {| x := x; width := stripeWidth; yStart := 0; yEnd := HEIGHT;
                         color := color; opacity := 0.6 + opacityRoll * 0.4 |} in
        gapRoll <- random ;;
        gap <-
          (if gapRoll <? 0.4 then r <- random ;; ret (1 + r * 3)
           else if gapRoll <? 0.8 then r <- random ;; ret (4 + r * 15)
           else r <- random ;; ret (20 + r * 40)) ;;
        stripeLoop remaining' (x + (stripeWidth + gap)) (stripes ++ [stripe])
      else ret stripes
  end.

Definition generateStripes : State Seed (list Stripe) :=
  stripeLoop (stripeCount p) 0 [].

(** A stripe that starts left of the right edge of the stripe zone and
    spans the full height of the banner. *)
Definition stripeInZone (st : Stripe) : Prop :=
  (x st <? WIDTH * stripeZoneWidth p) = true /\ yStart st = 0 /\ yEnd st = HEIGHT.

End Stripes.

End Banner.

(** * Properties *)

(** ** The tracer loop *)

Section FlowLoopFacts.
Context {num : Type} {N : Number num} {M : MathObj num}.
Variable angleAt : num -> num -> num.
Variable stepSize : num.
Variable outside : num -> num -> bool.

Local Abbreviation loop := (flowLoop angleAt stepSize outside).
Local Abbreviation next := (advance angleAt stepSize).
Local Abbreviation out := (exits outside).

Lemma flowLoop_unfold (steps : nat) (x y : num) :
  loop (S steps) x y =
  mkPoint x y ::
    (if out (next (mkPoint x y)) then []
     else loop steps (px (next (mkPoint x y))) (py (next (mkPoint x y)))).
Proof. reflexivity. Qed.

(** The start is pushed before any test. *)
Lemma flowLoop_head (steps : nat) (x y : num) :
  exists rest, loop (S steps) x y = mkPoint x y :: rest.
Proof. rewrite flowLoop_unfold. eauto. Qed.

Lemma flowLoop_length (steps : nat) : forall x y,
  (length (loop steps x y) <= steps)%nat.
Proof.
  induction steps as [|n IH]; intros x y.
  - apply Nat.le_refl.
  - rewrite flowLoop_unfold. cbn [length].
    destruct (out _); cbn [length]; [lia|].
    specialize (IH (px (next (mkPoint x y))) (py (next (mkPoint x y)))). lia.
Qed.

(** Every pushed point passed the exit test, provided the start did. *)
Lemma flowLoop_inside (steps : nat) : forall x y,
  outside x y = false ->
  Forall (fun p => outside (px p) (py p) = false) (loop steps x y).
Proof.
  induction steps as [|n IH]; intros x y Hstart.
  - constructor.
  - rewrite flowLoop_unfold. constructor; [exact Hstart|].
    destruct (out (next (mkPoint x y))) eqn:E; [constructor|].
    apply IH. exact E.
Qed.

(** A lone start whose first advance is outside. *)
Lemma flowLoop_single (steps : nat) (x y : num) :
  out (next (mkPoint x y)) = true ->
  loop (S steps) x y = [mkPoint x y].
Proof. intros E. rewrite flowLoop_unfold, E. reflexivity. Qed.

(** Consecutive points are chained by [advance], and the advance between
    them stayed inside. *)
Lemma flowLoop_chain (steps : nat) : forall x y i p q,
  nth_error (loop steps x y) i = Some p ->
  nth_error (loop steps x y) (S i) = Some q ->
  q = next p /\ out (next p) = false.
Proof.
  induction steps as [|n IH]; intros x y i p q Hp Hq.
  - destruct i; discriminate.
  - rewrite flowLoop_unfold in Hp, Hq.
    destruct (out (next (mkPoint x y))) eqn:E.
    + destruct i; discriminate.
    + destruct i as [|i].
      * simpl in Hp. injection Hp as <-.
        destruct n as [|n]; [discriminate|].
        simpl in Hq. injection Hq as <-. split; [reflexivity|exact E].
      * simpl in Hp.
        change (nth_error (loop n (px (next (mkPoint x y)))
                                (py (next (mkPoint x y)))) (S i) = Some q) in Hq.
        eapply IH; eassumption.
Qed.

(** A polyline shorter than the step budget ends where the cursor left. *)
Lemma flowLoop_short (steps : nat) : forall x y,
  (length (loop steps x y) < steps)%nat ->
  exists p, nth_error (loop steps x y) (length (loop steps x y) - 1) = Some p
            /\ out (next p) = true.
Proof.
  induction steps as [|n IH]; intros x y Hlen; [inversion Hlen|].
  rewrite flowLoop_unfold in *.
  destruct (out (next (mkPoint x y))) eqn:E.
  - exists (mkPoint x y). split; [reflexivity|exact E].
  - set (x' := px (next (mkPoint x y))) in *.
    set (y' := py (next (mkPoint x y))) in *.
    cbn [length] in *.
    destruct (IH x' y') as (p & Hp & Hout); [lia|].
    exists p. split; [|exact Hout].
    revert Hp. destruct (loop n x' y') as [|q l]; [discriminate|].
    cbn [length]. rewrite !Nat.sub_succ, !Nat.sub_0_r. intros Hp. exact Hp.
Qed.

Lemma flowLoop_law (steps : nat) (x y : num) :
  LengthLaw angleAt stepSize outside steps (loop steps x y).
Proof.
  split; [apply flowLoop_length|]. split; [|apply flowLoop_short].
  intros i q Hq Hlt.
  destruct (nth_error (loop steps x y) (S i)) as [q'|] eqn:Hq'.
  - eapply flowLoop_chain; eassumption.
  - apply nth_error_None in Hq'. lia.
Qed.

Lemma flowLoop_start (steps : nat) (x y : num) :
  (1 <= steps)%nat -> StartLaw angleAt stepSize outside steps x y (loop steps x y).
Proof.
  intros Hsteps. destruct steps as [|n]; [inversion Hsteps|].
  split; [apply flowLoop_head|]. split; [apply flowLoop_single|].
  intros E Hn. destruct n as [|n]; [lia|].
  rewrite flowLoop_unfold, E.
  destruct (flowLoop_head n (px (next (mkPoint x y))) (py (next (mkPoint x y))))
    as [rest ->].
  cbn [length]. lia.
Qed.

End FlowLoopFacts.

(** ** Comparisons of binary64 numbers *)

Lemma SFcompare_antisym (f1 f2 : spec_float) :
  SFcompare f2 f1 = option_map CompOpp (SFcompare f1 f2).
Proof.
  destruct f1 as [s1| s1| |s1 m1 e1], f2 as [s2| s2| |s2 m2 e2]; cbn;
    try reflexivity; try (destruct s1; reflexivity); try (destruct s2; reflexivity);
    try (destruct s1, s2; reflexivity).
  pose proof (Pos.compare_cont_antisym m1 m2 Eq) as Hm. cbn [CompOpp] in Hm.
  destruct s1, s2; cbn; try reflexivity;
    rewrite (Z.compare_antisym e1 e2); destruct (e1 ?= e2)%Z; cbn; try reflexivity;
    rewrite Hm, ?CompOpp_involutive; reflexivity.
Qed.

Lemma is_nan_false_spec (x : float) :
  is_nan x = false -> Prim2SF x <> S754_nan.
Proof.
  unfold is_nan. rewrite FloatAxioms.eqb_spec. intros H E. rewrite E in H. discriminate H.
Qed.

Lemma SFcompare_defined (f1 f2 : spec_float) :
  f1 <> S754_nan -> f2 <> S754_nan -> exists c, SFcompare f1 f2 = Some c.
Proof.
  destruct f1, f2; cbn; intros H1 H2; try (now elim H1); try (now elim H2); eauto.
Qed.

(** Between two numbers, "not less than" is "greater than or equal to". *)
Lemma ltb_false_leb (x y : float) :
  is_nan x = false -> is_nan y = false ->
  (x <? y)%float = false -> (y <=? x)%float = true.
Proof.
  intros Hx Hy. rewrite ltb_spec, leb_spec. unfold SFltb, SFleb.
  rewrite (SFcompare_antisym (Prim2SF x) (Prim2SF y)).
  destruct (@SFcompare_defined (Prim2SF x) (Prim2SF y)
              (@is_nan_false_spec x Hx) (@is_nan_false_spec y Hy)) as [c ->].
  destruct c; cbn; congruence.
Qed.

Lemma leb_true_ltb (x y : float) :
  (x <=? y)%float = true -> (y <? x)%float = false.
Proof.
  rewrite ltb_spec, leb_spec. unfold SFltb, SFleb.
  rewrite (SFcompare_antisym (Prim2SF x) (Prim2SF y)).
  destruct (SFcompare (Prim2SF x) (Prim2SF y)) as [[]|]; cbn; congruence.
Qed.

(** A comparison that holds has two numbers as its arguments. *)
Lemma leb_true_not_nan (x y : float) :
  (x <=? y)%float = true -> is_nan x = false /\ is_nan y = false.
Proof.
  unfold is_nan. rewrite leb_spec, !FloatAxioms.eqb_spec. unfold SFleb, SFeqb.
  destruct (Prim2SF x) as [| | |s1 m1 e1] eqn:Ex,
           (Prim2SF y) as [| | |s2 m2 e2] eqn:Ey; cbn; try discriminate;
    intros _; split; try reflexivity;
    repeat match goal with |- context [if ?s then _ else _] => destruct s end;
    cbn; try reflexivity;
    rewrite ?Z.compare_refl, ?Pos.compare_cont_refl; reflexivity.
Qed.

(** The exit test of the tracers against the region of the specification:
    a point within the region passes the test, and a point that passes it
    and has numbers for coordinates lies within the region (the bounds
    being numbers). *)
Lemma within_not_outside (minX maxX minY maxY x y : float) :
  withinRegion minX maxX minY maxY x y = true ->
  ((x <? minX) || (maxX <? x) || (y <? minY) || (maxY <? y))%float = false.
Proof.
  unfold withinRegion. rewrite !andb_true_iff. intros [[[H1 H2] H3] H4].
  now rewrite (@leb_true_ltb _ _ H1), (@leb_true_ltb _ _ H2),
              (@leb_true_ltb _ _ H3), (@leb_true_ltb _ _ H4).
Qed.

Lemma not_outside_within (minX maxX minY maxY x y : float) :
  is_nan minX = false -> is_nan maxX = false ->
  is_nan minY = false -> is_nan maxY = false ->
  is_nan x = false -> is_nan y = false ->
  ((x <? minX) || (maxX <? x) || (y <? minY) || (maxY <? y))%float = false ->
  withinRegion minX maxX minY maxY x y = true.
Proof.
  intros Ha Hb Hc Hd Hx Hy. rewrite !orb_false_iff. intros [[[H1 H2] H3] H4].
  unfold withinRegion.
  now rewrite (@ltb_false_leb _ _ Hx Ha H1), (@ltb_false_leb _ _ Hb Hx H2),
              (@ltb_false_leb _ _ Hy Hc H3), (@ltb_false_leb _ _ Hd Hy H4).
Qed.

(** A region that holds a point has numbers for bounds. *)
Lemma within_bounds_numbers (minX maxX minY maxY x y : float) :
  withinRegion minX maxX minY maxY x y = true ->
  is_nan minX = false /\ is_nan maxX = false /\
  is_nan minY = false /\ is_nan maxY = false.
Proof.
  unfold withinRegion. rewrite !andb_true_iff. intros [[[H1 H2] H3] H4].
  repeat split;
    [apply (@leb_true_not_nan _ _ H1) | apply (@leb_true_not_nan _ _ H2)
     | apply (@leb_true_not_nan _ _ H3) | apply (@leb_true_not_nan _ _ H4)].
Qed.

(** ** Counted loops *)

Lemma forPush_length {St A : Type} (body : nat -> State St A) (n : nat) :
  forall i s, length (fst (forPush n i body s)) = n.
Proof.
  induction n as [|n IH]; intros i s; [reflexivity|].
  cbn [forPush]. unfold bind at 1. destruct (body i s) as [a s1].
  unfold bind at 1. specialize (IH (S i) s1).
  destruct (forPush n (S i) body s1) as [rest s2]. cbn in *. now rewrite IH.
Qed.

(** ** The octave loop *)

Section OctaveFacts.
Context {num : Type} {N : Number num} {L : NoiseLib num}.
Variable p : FlowField.Params num.
Local Open Scope js_scope.

Import FlowField.

(** Loop invariant: after [i] layers the amplitude and the frequency are
    those of layer [i], and the accumulators hold the partial sums. *)
Lemma octaveLoop_sum (x y time : num) (n : nat) : forall i angle maxAmplitude,
  octaveLoop p n x y time angle (amplitudeAt p i) (frequencyAt p i) maxAmplitude =
  (sumFrom (layer p x y time) i n angle, sumFrom (amplitudeAt p) i n maxAmplitude).
Proof.
  induction n as [|n IH]; intros i angle maxAmplitude; [reflexivity|].
  cbn [octaveLoop].
  change (amplitudeAt p i * flowPersistence p) with (amplitudeAt p (S i)).
  change (frequencyAt p i * flowLacunarity p) with (frequencyAt p (S i)).
  rewrite IH. reflexivity.
Qed.

Lemma getFlowAngle_formula (x y time : num) :
  getFlowAngle p x y time = octaveFormula p x y time.
Proof.
  unfold getFlowAngle, octaveFormula.
  change num_one with (amplitudeAt p 0). change (noiseScale p) with (frequencyAt p 0).
  rewrite octaveLoop_sum. reflexivity.
Qed.

End OctaveFacts.

(** ** The normalised octave sum in exact arithmetic *)

Section ExactBound.
Context {L : NoiseLib Q}.
Variable p : FlowField.Params Q.
Hypothesis noise_range : forall x y t, (-1 <= noise3D x y t <= 1)%Q.
Hypothesis persistence_nonneg : (0 <= FlowField.flowPersistence p)%Q.
Local Open Scope Q_scope.

Import FlowField.

(** Loop invariant: the accumulated angle stays within the accumulated
    amplitude, which never decreases. *)
Lemma octaveLoop_bound (x y time : Q) (n : nat) :
  forall angle amplitude frequency maxAmplitude,
    0 <= amplitude ->
    - maxAmplitude <= angle <= maxAmplitude ->
    let r := octaveLoop p n x y time angle amplitude frequency maxAmplitude in
    - snd r <= fst r <= snd r /\ maxAmplitude <= snd r /\
    (n <> O -> maxAmplitude + amplitude <= snd r).
Proof.
  induction n as [|n IH];
    intros angle amplitude frequency maxAmplitude Hamp Hang; cbv zeta.
  - cbn [octaveLoop fst snd].
    split; [exact Hang|]. split; [lra|]. intros H; now elim H.
  - cbn [octaveLoop]. cbv [num_add num_mul Q_Number].
    pose proof (noise_range (x * frequency) (y * frequency) time) as Hn.
    set (v := noise3D (x * frequency) (y * frequency) time) in *.
    assert (Hterm : - amplitude <= v * amplitude <= amplitude) by (split; nra).
    assert (Hamp' : 0 <= amplitude * flowPersistence p) by nra.
    specialize (IH (angle + v * amplitude) (amplitude * flowPersistence p)
                   (frequency * flowLacunarity p) (maxAmplitude + amplitude)
                   Hamp' ltac:(lra)).
    cbv zeta in IH. destruct IH as (H1 & H2 & _).
    split; [exact H1|]. split; [|intros _; exact H2].
    eapply Qle_trans; [|exact H2]. lra.
Qed.

Lemma getFlowAngle_within_amplitude (x y time : Q) :
  (1 <= flowOctaves p)%nat ->
  0 <= noiseAmplitude p ->
  - noiseAmplitude p <= getFlowAngle p x y time <= noiseAmplitude p.
Proof.
  intros Hk HA. unfold getFlowAngle.
  pose proof (octaveLoop_bound x y time (flowOctaves p) (angle := 0)
                (amplitude := 1) (noiseScale p) (maxAmplitude := 0)
                ltac:(lra) ltac:(lra)) as H.
  cbv zeta in H. cbv [num_zero num_one Q_Number].
  destruct (octaveLoop p (flowOctaves p) x y time 0 1 (noiseScale p) 0)
    as [angle maxAmplitude].
  cbn [fst snd] in H. destruct H as (Hrange & _ & Hpos).
  assert (Hm : 1 <= maxAmplitude) by (specialize (Hpos ltac:(lia)); lra).
  cbv [num_div num_mul Q_Number].
  assert (Hhi : angle / maxAmplitude <= 1)
    by (apply Qle_shift_div_r; lra).
  assert (Hlo : -1 <= angle / maxAmplitude)
    by (apply Qle_shift_div_l; lra).
  split; nra.
Qed.

End ExactBound.

(** ** How many positions the spawn generators return *)

Section SpawnCounts.
Context {M : MathObj float} {rng : Type} {R : RandomLib rng}.

Lemma flowField_spawn_length (p : FlowField.Params float) (width height : float)
      (count : nat) (margin : float) (s : rng) :
  length (fst (FlowField.generateSpawnPositions p width height count margin s)) = count.
Proof.
  unfold FlowField.generateSpawnPositions.
  destruct (String.eqb (FlowField.spawnPattern p) "grid").
  { cbn. unfold FlowField.gridPositions. now rewrite length_map, length_seq. }
  destruct (String.eqb (FlowField.spawnPattern p) "center"); [apply forPush_length|].
  destruct (String.eqb (FlowField.spawnPattern p) "circle"); apply forPush_length.
Qed.

Import Lightfast.

Lemma ringParticles_length (count : nat) (maxRadius centerX centerY ppr : float)
      (ring : nat) (positions : list RingPoint) (s : rng) :
  length (fst (ringParticles count maxRadius centerX centerY ppr ring positions s)) =
  Nat.min (loopCount (Math_floor (ppr * (1 + of_nat ring * 0.3))%float))
          (count - length positions).
Proof. unfold ringParticles. apply forPush_length. Qed.

Lemma ringLoop_length (n count : nat) (maxRadius centerX centerY ppr : float) :
  forall ring positions s,
    length (fst (ringLoop n count maxRadius centerX centerY ppr ring positions s)) =
    ringTotal n count ppr ring (length positions).
Proof.
  induction n as [|n IH]; intros ring positions s; [reflexivity|].
  cbn [ringLoop ringTotal]. unfold bind at 1.
  pose proof (ringParticles_length count maxRadius centerX centerY ppr ring positions s)
    as Hnew.
  destruct (ringParticles count maxRadius centerX centerY ppr ring positions s)
    as [new s1].
  cbn [fst] in Hnew. rewrite IH, length_app, Hnew. reflexivity.
Qed.

Lemma burst_spawn_length (p : Params) (width height : float) (count : nat) (s : rng) :
  spawnPattern p = "radial-burst"%string ->
  length (fst (generateSpawnPositions p width height count s)) = burstLength count.
Proof.
  intros Hpat. unfold generateSpawnPositions, burstLength. rewrite Hpat.
  cbn [String.eqb Ascii.eqb Bool.eqb]. cbv beta zeta.
  unfold bind at 1.
  pose proof (ringLoop_length 12 count
    (Math_min width height * (0.5 - margin p))%float (width / 2)%float
    (height / 2)%float (Math_floor (of_nat count / 12)%float) 0 [] s) as Hrings.
  destruct (ringLoop 12 count _ _ _ _ 0 [] s) as [positions s1].
  cbn [fst length] in Hrings.
  unfold bind at 1.
  match goal with |- context [forPush ?n 0 ?b s1] =>
    pose proof (forPush_length b n 0 s1) as Hextra;
    destruct (forPush n 0 b s1) as [extra s2]
  end.
  cbn [fst] in Hextra. cbn [ret fst].
  rewrite length_firstn, length_app, Hrings, Hextra. reflexivity.
Qed.

(** [slice(0, count)] never returns more than [count] positions. *)
Lemma burst_spawn_bound (p : Params) (width height : float) (count : nat) (s : rng) :
  (length (fst (generateSpawnPositions p width height count s)) <= count)%nat.
Proof.
  unfold generateSpawnPositions.
  destruct (String.eqb (spawnPattern p) "radial-burst").
  - unfold bind at 1. destruct (ringLoop 12 count _ _ _ _ 0 [] s) as [positions s1].
    unfold bind at 1.
    match goal with |- context [forPush ?n 0 ?b s1] =>
      destruct (forPush n 0 b s1) as [extra s2]
    end.
    cbn [ret fst]. rewrite length_firstn. apply Nat.le_min_l.
  - cbn [ret fst]. rewrite firstn_nil. apply Nat.le_0_l.
Qed.

End SpawnCounts.

Lemma burstLength_exact_range :
  forallb (fun c => Nat.eqb (Lightfast.burstLength c) c) (seq 12 1989) = true.
Proof. vm_compute. reflexivity. Qed.

Lemma burstLength_small_range :
  forallb (fun c => Nat.ltb (Lightfast.burstLength c) c) (seq 1 11) = true.
Proof. vm_compute. reflexivity. Qed.

(** ** Runs on concrete inputs *)

Example straightTrace_points :
  straightTrace = [mkPoint 0 5; mkPoint 5 5; mkPoint 10 5]%float.
Proof. vm_compute. reflexivity. Qed.

Example reentrantTrace_points :
  reentrantTrace = [mkPoint (-3) 5; mkPoint 2 5; mkPoint 7 5]%float.
Proof. vm_compute. reflexivity. Qed.

(** The second scenario of the specification: four positions on the square
    from 0 to 10 are its corners, row by row. *)
Example grid_four_corners :
  FlowField.gridPositions 10%float 10%float 4 0%float =
  [mkPoint 0 0; mkPoint 10 0; mkPoint 0 10; mkPoint 10 10]%float.
Proof. vm_compute. reflexivity. Qed.

(** ** The tracers *)

(** The tracers of the flow-field sketch and of sketch-lightfast.js on
    doubles, against the region of the specification: from a start within
    the region, every point of the polyline whose coordinates are numbers
    lies within the region. *)
Lemma flowField_trace_within (M : MathObj float) (L : NoiseLib float)
      (p : FlowField.Params float) (startX startY width height margin : float) :
  withinRegion (width * margin) (width * (1 - margin))
               (height * margin) (height * (1 - margin)) startX startY = true ->
  Forall (fun q => is_nan (px q) = false -> is_nan (py q) = false ->
                   withinRegion (width * margin) (width * (1 - margin))
                                (height * margin) (height * (1 - margin))
                                (px q) (py q) = true)
         (FlowField.traceFlowLine p startX startY width height margin).
Proof.
  intros Hstart.
  destruct (within_bounds_numbers _ _ _ _ _ _ Hstart) as (Ha & Hb & Hc & Hd).
  eapply Forall_impl;
    [|apply flowLoop_inside; exact (within_not_outside _ _ _ _ _ _ Hstart)].
  intros q Hq Hx Hy. now apply not_outside_within.
Qed.

Lemma lightfast_trace_within (M : MathObj float) (L : NoiseLib float)
      (p : Lightfast.Params) (startX startY width height : float) :
  withinRegion (width * Lightfast.margin p) (width * (1 - Lightfast.margin p))
               (height * Lightfast.margin p) (height * (1 - Lightfast.margin p))
               startX startY = true ->
  Forall (fun q => is_nan (px q) = false -> is_nan (py q) = false ->
                   withinRegion (width * Lightfast.margin p)
                                (width * (1 - Lightfast.margin p))
                                (height * Lightfast.margin p)
                                (height * (1 - Lightfast.margin p))
                                (px q) (py q) = true)
         (Lightfast.traceFlowLine p startX startY width height).
Proof.
  intros Hstart.
  destruct (within_bounds_numbers _ _ _ _ _ _ Hstart) as (Ha & Hb & Hc & Hd).
  eapply Forall_impl;
    [|apply flowLoop_inside; exact (within_not_outside _ _ _ _ _ _ Hstart)].
  intros q Hq Hx Hy. now apply not_outside_within.
Qed.



(** C2 as stated fails: under [straightParams] the trace from (0, 5) has
    three points, as many as the step budget, yet its cursor leaves the
    region: the advance from the last point (10, 5) is (15, 5). *)
Lemma full_length_trace_exits :
  length straightTrace = FlowField.lineLength straightParams
  /\ ~ NeverExits (M := pinnedMath)
         (fun x y => FlowField.getFlowAngle (L := quietNoise) straightParams x y 0%float)
         (FlowField.stepSize straightParams)
         (FlowField.outOfBounds 10 10 0)%float
         straightTrace.
Proof.
  split; [vm_compute; reflexivity|].
  intros H. specialize (H (mkPoint 10 5)%float).
  assert (Hin : In (mkPoint 10 5)%float straightTrace)
    by (rewrite straightTrace_points; right; right; left; reflexivity).
  specialize (H Hin). vm_compute in H. discriminate H.
Qed.

(** C2, amended.  For the three tracers the polyline has at most
    [lineLength] points; the advance from every point but the last stayed
    inside the region; and a polyline with fewer than [lineLength] points
    ends at the point from which the cursor left.  (An exit at the advance
    that follows the last allowed push leaves the length at [lineLength].) *)
Theorem trace_length_law :
  (forall (num : Type) (N : Number num) (M : MathObj num) (L : NoiseLib num)
          (p : FlowField.Params num) (startX startY width height margin : num),
      LengthLaw (fun x y => FlowField.getFlowAngle p x y num_zero)
                (FlowField.stepSize p) (FlowField.outOfBounds width height margin)
                (FlowField.lineLength p)
                (FlowField.traceFlowLine p startX startY width height margin))
  /\ (forall (M : MathObj float) (L : NoiseLib float) (p : Lightfast.Params)
             (startX startY width height : float),
         LengthLaw (fun x y => Lightfast.getFlowAngle p x y width height)
                   (Lightfast.stepSize p) (Lightfast.outOfBounds p width height)
                   (Lightfast.lineLength p)
                   (Lightfast.traceFlowLine p startX startY width height))
  /\ (forall (M : MathObj float) (p : ExportIcon.Params)
             (startX startY width height : float),
         LengthLaw (fun x y => ExportIcon.getFlowAngle p x y width height)
                   (ExportIcon.stepSize p) (ExportIcon.outOfBounds p width height)
                   (ExportIcon.lineLength p)
                   (ExportIcon.traceLine p startX startY width height)).
Proof.
  split; [|split]; intros; apply flowLoop_law.
Qed.

Lemma trace_length_law_witness :
  (length straightTrace <= 3)%nat.
Proof.
  destruct trace_length_law as [H _].
  exact (proj1 (H float float_Number pinnedMath quietNoise straightParams
                  0%float 5%float 10%float 10%float 0%float)).
Defined.

(** C10 as stated fails in its last part: under [straightParams] the start
    (-3, 5) lies left of the region, and the polyline has three points, not
    one, because the first advance enters the region. *)
Lemma outside_start_reenters :
  FlowField.outOfBounds 10%float 10%float 0%float (-3)%float 5%float = true
  /\ reentrantTrace = [mkPoint (-3) 5; mkPoint 2 5; mkPoint 7 5]%float
  /\ length reentrantTrace <> 1%nat.
Proof.
  split; [vm_compute; reflexivity|]. split; [exact reentrantTrace_points|].
  rewrite reentrantTrace_points. discriminate.
Qed.

(** C10, amended.  For the three tracers and a step budget of at least one,
    the polyline is not empty and its first point is the start, whether or
    not the start lies in the region (it is pushed before any test); the
    polyline is the start alone when the first advance is outside the
    region, and has a second point when the first advance is inside and the
    budget allows two steps. *)
Theorem trace_starts_at_start :
  (forall (num : Type) (N : Number num) (M : MathObj num) (L : NoiseLib num)
          (p : FlowField.Params num) (startX startY width height margin : num),
      (1 <= FlowField.lineLength p)%nat ->
      StartLaw (fun x y => FlowField.getFlowAngle p x y num_zero)
               (FlowField.stepSize p) (FlowField.outOfBounds width height margin)
               (FlowField.lineLength p) startX startY
               (FlowField.traceFlowLine p startX startY width height margin))
  /\ (forall (M : MathObj float) (L : NoiseLib float) (p : Lightfast.Params)
             (startX startY width height : float),
         (1 <= Lightfast.lineLength p)%nat ->
         StartLaw (fun x y => Lightfast.getFlowAngle p x y width height)
                  (Lightfast.stepSize p) (Lightfast.outOfBounds p width height)
                  (Lightfast.lineLength p) startX startY
                  (Lightfast.traceFlowLine p startX startY width height))
  /\ (forall (M : MathObj float) (p : ExportIcon.Params)
             (startX startY width height : float),
         (1 <= ExportIcon.lineLength p)%nat ->
         StartLaw (fun x y => ExportIcon.getFlowAngle p x y width height)
                  (ExportIcon.stepSize p) (ExportIcon.outOfBounds p width height)
                  (ExportIcon.lineLength p) startX startY
                  (ExportIcon.traceLine p startX startY width height)).
Proof.
  split; [|split]; intros; apply flowLoop_start; assumption.
Qed.

Lemma trace_starts_at_start_witness :
  exists rest, reentrantTrace = mkPoint (-3)%float 5%float :: rest.
Proof.
  destruct trace_starts_at_start as [H _].
  refine (proj1 (H float float_Number pinnedMath quietNoise straightParams
                   (-3)%float 5%float 10%float 10%float 0%float _)).
  vm_compute. lia.
Defined.

(** ** The noise field *)

(** C3, multi-octave angle.  With [k = flowOctaves] layers, base scale [s],
    lacunarity [l], persistence [q] and output amplitude [A], the angle is
    [(sum_i noise(x * f_i, y * f_i, t) * a_i) / (sum_i a_i) * A] for
    [i = 0 .. k-1], where [f_i = s * l^i] and [a_i = q^i] are built by
    multiplying [i] times, and the sums are taken in increasing order of
    [i] from 0, as the loop does.  Holds for every [k], over any number
    type. *)
Theorem multi_octave_angle_formula
        (num : Type) (N : Number num) (L : NoiseLib num)
        (p : FlowField.Params num) (x y t : num) :
  FlowField.getFlowAngle p x y t =
  num_mul
    (num_div
       (fold_left
          (fun acc i =>
             num_add acc
               (num_mul (noise3D (num_mul x (FlowField.frequencyAt p i))
                                 (num_mul y (FlowField.frequencyAt p i)) t)
                        (FlowField.amplitudeAt p i)))
          (seq 0 (FlowField.flowOctaves p)) num_zero)
       (fold_left (fun acc i => num_add acc (FlowField.amplitudeAt p i))
                  (seq 0 (FlowField.flowOctaves p)) num_zero))
    (FlowField.noiseAmplitude p).
Proof.
  rewrite getFlowAngle_formula. reflexivity.
Qed.



(** ** The angle composition *)

(** C7 as stated fails for export-icon.js: at the point (0, 0) of a canvas
    of width 512 and height 0, with the table of the script, the angle is
    0.9 π, and the blend of the radial angle π and the noise angle -0.4 π
    with weight [radialStrength = 0.75] is 0.65 π. *)
Lemma export_icon_angle_is_not_blend :
  ExportIcon.getFlowAngle (M := pinnedMath) ExportIcon.params 0%float 0%float 512%float 0%float
  <> radialBlend
       (Math_atan2 (MathObj := pinnedMath) (0 - 0 / 2) (0 - 512 / 2))%float
       (ExportIcon.noise2D (M := pinnedMath)
          (0 * ExportIcon.noiseScale ExportIcon.params)
          (0 * ExportIcon.noiseScale ExportIcon.params)
        * ExportIcon.noiseStrength ExportIcon.params
        * normalizedDistance 0 0 512 0)%float
       (ExportIcon.radialStrength ExportIcon.params).
Proof.
  intros H.
  assert (E : PrimFloat.eqb
                (ExportIcon.getFlowAngle (M := pinnedMath) ExportIcon.params
                   0%float 0%float 512%float 0%float)
                (ExportIcon.getFlowAngle (M := pinnedMath) ExportIcon.params
                   0%float 0%float 512%float 0%float) = true)
    by (vm_compute; reflexivity).
  rewrite H in E at 2. vm_compute in E. discriminate E.
Qed.

(** C7, amended.  In sketch-icon.js the angle is the blend of the radial
    angle and the noise angle with the constant weight [radialStrength].
    In sketch-lightfast.js it is the blend with the weight
    [radialInfluence * (1 - d * 0.5)], where [d] is the normalised distance
    from the centre, plus the spiral term [d * spiralTwist * π].  In
    export-icon.js the radial angle is taken whole: the angle is the radial
    angle plus [noiseAngle * (1 - radialStrength)], where the noise angle is
    the noise value times [noiseStrength] times [d]. *)
Theorem radial_angle_composition :
  (forall (M : MathObj float) (L : NoiseLib float) (p : SketchIcon.Params)
          (x y width height : float),
      SketchIcon.getFlowAngle p x y width height =
      radialBlend (Math_atan2 (y - height / 2) (x - width / 2))%float
                  (noise2D (x * SketchIcon.noiseScale p) (y * SketchIcon.noiseScale p)
                   * SketchIcon.noiseStrength p)%float
                  (SketchIcon.radialStrength p))
  /\ (forall (M : MathObj float) (L : NoiseLib float) (p : Lightfast.Params)
             (x y width height : float),
         Lightfast.getFlowAngle p x y width height =
         (radialBlend (Math_atan2 (y - height / 2) (x - width / 2))
                      (noise2D (x * Lightfast.noiseScale p) (y * Lightfast.noiseScale p)
                       * Lightfast.noiseAmplitude p)
                      (Lightfast.radialInfluence p
                       * (1 - normalizedDistance x y width height * 0.5))
          + normalizedDistance x y width height * Lightfast.spiralTwist p * Math_PI)%float)
  /\ (forall (M : MathObj float) (p : ExportIcon.Params) (x y width height : float),
         ExportIcon.getFlowAngle p x y width height =
         (Math_atan2 (y - height / 2) (x - width / 2)
          + ExportIcon.noise2D (x * ExportIcon.noiseScale p) (y * ExportIcon.noiseScale p)
            * ExportIcon.noiseStrength p * normalizedDistance x y width height
            * (1 - ExportIcon.radialStrength p))%float).
Proof.
  split; [|split]; intros; reflexivity.
Qed.

(** ** The render pass and the spawn generators *)

(** C4, determinism.  A render pass of export-icon.js resets the seed
    before it draws its spawn points, and the tracer reads no generator
    state: whatever state earlier calls left in [seed], the pass returns the
    same polylines, coordinate for coordinate, and leaves the same seed. *)
Theorem render_deterministic
        (M : MathObj float) (p : ExportIcon.Params) (s1 s2 : ExportIcon.Seed) :
  ExportIcon.renderLines p s1 = ExportIcon.renderLines p s2.
Proof.
  unfold ExportIcon.renderLines, bind, ExportIcon.resetSeed. reflexivity.
Qed.

(** C5 as stated fails for the radial burst: one requested position, the
    table of sketch-lightfast.js, and no position is returned (no ring gets
    a particle and the centre batch is empty). *)
Lemma radial_burst_underproduces :
  fst (Lightfast.generateSpawnPositions (M := pinnedMath) (R := lcgRandom)
         Lightfast.params 1024%float 1024%float 1 ExportIcon.initialSeed) = [].
Proof. vm_compute. reflexivity. Qed.

(** C5, amended.  The generator of the flow-field sketch returns exactly
    [N] positions for each of its patterns and every [N], and the ring
    generators of the two icon scripts return exactly [lineCount]
    positions.  The radial-burst generator of sketch-lightfast.js never
    returns more than [N] positions (overproduction is cut by [slice]); it
    returns exactly [N] for [12 <= N <= 2000] and fewer than [N] for
    [1 <= N <= 11]. *)
Theorem spawn_count :
  (forall (M : MathObj float) (rng : Type) (R : RandomLib rng)
          (p : FlowField.Params float) (width height : float) (N : nat)
          (margin : float) (s : rng),
      length (fst (FlowField.generateSpawnPositions p width height N margin s)) = N)
  /\ (forall (M : MathObj float) (rng : Type) (R : RandomLib rng)
             (p : Lightfast.Params) (width height : float) (N : nat) (s : rng),
         (length (fst (Lightfast.generateSpawnPositions p width height N s)) <= N)%nat
         /\ (Lightfast.spawnPattern p = "radial-burst"%string ->
             (12 <= N <= 2000)%nat ->
             length (fst (Lightfast.generateSpawnPositions p width height N s)) = N)
         /\ (Lightfast.spawnPattern p = "radial-burst"%string ->
             (1 <= N <= 11)%nat ->
             (length (fst (Lightfast.generateSpawnPositions p width height N s)) < N)%nat))
  /\ (forall (M : MathObj float) (rng : Type) (R : RandomLib rng)
             (p : SketchIcon.Params) (width height : float) (s : rng),
         length (fst (SketchIcon.getSpawnPoints p width height s))
         = SketchIcon.lineCount p)
  /\ (forall (M : MathObj float) (p : ExportIcon.Params) (width height : float)
             (s : ExportIcon.Seed),
         length (fst (ExportIcon.getSpawnPoints p width height s))
         = ExportIcon.lineCount p).
Proof.
  split; [|split; [|split]];
    [| |intros; apply forPush_length|intros; apply forPush_length].
  - intros. apply flowField_spawn_length.
  - intros M rng R p width height N s.
    split; [apply burst_spawn_bound|].
    split; intros Hpat HN;
      rewrite (@burst_spawn_length M rng R p width height N s Hpat).
    + pose proof burstLength_exact_range as Hall.
      rewrite forallb_forall in Hall.
      apply Nat.eqb_eq, Hall, in_seq. lia.
    + pose proof burstLength_small_range as Hall.
      rewrite forallb_forall in Hall.
      apply Nat.ltb_lt, Hall, in_seq. lia.
Qed.

Lemma spawn_count_witness :
  length (fst (Lightfast.generateSpawnPositions (M := pinnedMath) (R := lcgRandom)
                 Lightfast.params 1024%float 1024%float 600 ExportIcon.initialSeed))
  = 600%nat.
Proof.
  destruct spawn_count as (_ & H & _).
  refine (proj1 (proj2 (H pinnedMath _ lcgRandom Lightfast.params 1024%float 1024%float
                          600%nat ExportIcon.initialSeed)) _ _).
  - reflexivity.
  - lia.
Defined.

(** C6, the grid pattern with one position: there is one column and one
    row, both divisions are 0 / 0, and the single position has NaN for both
    coordinates; no case is set apart for [count = 1]. *)
Theorem grid_single_position_is_nan (rng : Type) (R : RandomLib rng) (s : rng) :
  fst (FlowField.generateSpawnPositions (M := pinnedMath) gridParams
         1024%float 1024%float 1 0.1%float s) = [mkPoint nan nan].
Proof. vm_compute. reflexivity. Qed.

(** ** Configuration handling *)



(** * Further properties of the scripts *)

(** ** The tracer loop: budgets and resumption *)

Section FlowLoopBudget.
Context {num : Type} {N : Number num} {M : MathObj num}.
Variable angleAt : num -> num -> num.
Variable stepSize : num.
Variable outside : num -> num -> bool.

Local Abbreviation loop := (flowLoop angleAt stepSize outside).
Local Abbreviation next := (advance angleAt stepSize).
Local Abbreviation out := (exits outside).

(** A smaller budget cuts the polyline short and changes nothing else. *)
Lemma flowLoop_prefix (n : nat) : forall m x y,
  (n <= m)%nat -> loop n x y = firstn n (loop m x y).
Proof.
  induction n as [|n IH]; intros m x y Hle; [reflexivity|].
  destruct m as [|m]; [lia|].
  rewrite !flowLoop_unfold. cbn [firstn]. f_equal.
  destruct (out (next (mkPoint x y))).
  - now rewrite firstn_nil.
  - apply IH. lia.
Qed.

(** A full polyline whose last advance stays inside is continued by the
    polyline traced from that advance. *)
Lemma flowLoop_resume (n : nat) : forall m x y q,
  length (loop (S n) x y) = S n ->
  nth_error (loop (S n) x y) n = Some q ->
  out (next q) = false ->
  loop (S n + m) x y = loop (S n) x y ++ loop m (px (next q)) (py (next q)).
Proof.
  induction n as [|n IH]; intros m x y q Hlen Hq Hin.
  - rewrite flowLoop_unfold in Hq. cbn in Hq. injection Hq as <-.
    cbn [Nat.add]. rewrite !flowLoop_unfold, Hin.
    cbn [flowLoop]. reflexivity.
  - rewrite flowLoop_unfold in Hlen, Hq.
    change (S (S n) + m)%nat with (S (S n + m)).
    rewrite (flowLoop_unfold angleAt stepSize outside (S n + m)).
    rewrite (flowLoop_unfold angleAt stepSize outside (S n)).
    destruct (out (next (mkPoint x y))) eqn:E.
    + cbn in Hlen. lia.
    + cbn [length] in Hlen. cbn [nth_error] in Hq.
      rewrite (IH m _ _ q); [reflexivity|lia|exact Hq|exact Hin].
Qed.

(** A polyline that stopped, before or at its budget, is not continued by
    a larger budget. *)
Lemma flowLoop_stopped (n : nat) : forall m x y,
  ((length (loop n x y) < n)%nat
   \/ exists q, nth_error (loop n x y) (length (loop n x y) - 1) = Some q
                /\ out (next q) = true) ->
  loop (n + m) x y = loop n x y.
Proof.
  induction n as [|n IH]; intros m x y H.
  - destruct H as [H|(q & Hq & _)]; [inversion H|discriminate Hq].
  - change (S n + m)%nat with (S (n + m)). rewrite !flowLoop_unfold.
    rewrite flowLoop_unfold in H.
    destruct (out (next (mkPoint x y))) eqn:E; [reflexivity|].
    f_equal. apply IH.
    set (t := loop n (px (next (mkPoint x y))) (py (next (mkPoint x y)))) in *.
    cbn [length] in H.
    destruct H as [H|(q & Hq & Hout)]; [left; lia|].
    destruct t as [|a l] eqn:Et.
    + cbn in Hq. injection Hq as <-. rewrite E in Hout. discriminate Hout.
    + right. exists q. split; [|exact Hout].
      cbn [length] in Hq |- *. rewrite !Nat.sub_succ, !Nat.sub_0_r in *. exact Hq.
Qed.

End FlowLoopBudget.

Lemma flowLoop_resumable {num : Type} {N : Number num} {M : MathObj num}
      (angleAt : num -> num -> num) (stepSize : num) (outside : num -> num -> bool) :
  Resumable (fun n => flowLoop angleAt stepSize outside n)
            (advance angleAt stepSize) (exits outside).
Proof.
  intros n m x y. split.
  - intros Hlt. apply flowLoop_stopped. now left.
  - intros q Hlen Hq.
    destruct (exits outside (advance angleAt stepSize q)) eqn:E.
    + apply flowLoop_stopped. right. exists q. rewrite Hlen. now split.
    + destruct n as [|n]; [discriminate Hq|].
      cbn [Nat.sub] in Hq. rewrite Nat.sub_0_r in Hq.
      now apply flowLoop_resume.
Qed.

(** ** Not-a-number in binary64 arithmetic *)

Lemma Prim2SF_nan : Prim2SF nan = S754_nan.
Proof. reflexivity. Qed.

Lemma Prim2SF_nan_inv (x : float) : Prim2SF x = S754_nan -> x = nan.
Proof.
  intros H. rewrite <- (SF2Prim_Prim2SF x), H. reflexivity.
Qed.

Lemma add_nan_r (x : float) : (x + nan)%float = nan.
Proof.
  apply Prim2SF_nan_inv. rewrite add_spec, Prim2SF_nan.
  destruct (Prim2SF x); reflexivity.
Qed.

Lemma add_nan_l (x : float) : (nan + x)%float = nan.
Proof.
  apply Prim2SF_nan_inv. rewrite add_spec, Prim2SF_nan. reflexivity.
Qed.

Lemma mul_nan_l (x : float) : (nan * x)%float = nan.
Proof.
  apply Prim2SF_nan_inv. rewrite mul_spec, Prim2SF_nan. reflexivity.
Qed.

Lemma mul_nan_r (x : float) : (x * nan)%float = nan.
Proof.
  apply Prim2SF_nan_inv. rewrite mul_spec, Prim2SF_nan.
  destruct (Prim2SF x); reflexivity.
Qed.

Lemma ltb_nan_l (x : float) : (nan <? x)%float = false.
Proof. rewrite ltb_spec, Prim2SF_nan. reflexivity. Qed.

Lemma ltb_nan_r (x : float) : (x <? nan)%float = false.
Proof.
  rewrite ltb_spec, Prim2SF_nan. unfold SFltb. destruct (Prim2SF x); reflexivity.
Qed.

(** ** A cursor that is not a number *)

Section NanCursor.
Context {M : MathObj float}.
Variable angleAt : float -> float -> float.
Variable stepSize : float.
Variable outside : float -> float -> bool.
Hypothesis outside_nan : outside nan nan = false.

(** From a cursor without coordinates the loop runs to its budget and
    records nothing else. *)
Lemma flowLoop_from_nan (n : nat) :
  flowLoop angleAt stepSize outside n nan nan = repeat (mkPoint nan nan) n.
Proof.
  induction n as [|n IH]; [reflexivity|].
  rewrite flowLoop_unfold. cbn [repeat]. f_equal.
  unfold exits, advance. cbn [px py num_add num_mul float_Number].
  rewrite !add_nan_l, outside_nan. exact IH.
Qed.

Hypothesis cos_nan : Math_cos nan = nan.
Hypothesis sin_nan : Math_sin nan = nan.

(** A start where the angle is not a number: the rest of the polyline has
    no coordinates, and the budget is used up. *)
Lemma flowLoop_nan_angle (n : nat) (x y : float) :
  angleAt x y = nan ->
  flowLoop angleAt stepSize outside (S n) x y
  = mkPoint x y :: repeat (mkPoint nan nan) n.
Proof.
  intros Hangle. rewrite flowLoop_unfold. f_equal.
  unfold exits, advance. cbn [px py num_add num_mul float_Number].
  rewrite Hangle, cos_nan, sin_nan, !mul_nan_l, !add_nan_r, outside_nan.
  apply flowLoop_from_nan.
Qed.

End NanCursor.

(** ** The four tracers *)

(** X1, the polyline is the orbit of the cursor: in each of the four
    tracers, every point after the first is the advance of the point before
    it (one step of length [stepSize] along the flow angle there). *)
Theorem trace_points_chained :
  (forall (num : Type) (N : Number num) (M : MathObj num) (L : NoiseLib num)
          (p : FlowField.Params num) (startX startY width height margin : num),
      Chained (advance (fun x y => FlowField.getFlowAngle p x y num_zero)
                       (FlowField.stepSize p))
              (FlowField.traceFlowLine p startX startY width height margin))
  /\ (forall (M : MathObj float) (L : NoiseLib float) (p : Lightfast.Params)
             (startX startY width height : float),
         Chained (advance (fun x y => Lightfast.getFlowAngle p x y width height)
                          (Lightfast.stepSize p))
                 (Lightfast.traceFlowLine p startX startY width height))
  /\ (forall (M : MathObj float) (L : NoiseLib float) (p : SketchIcon.Params)
             (startX startY width height : float),
         Chained (advance (fun x y => SketchIcon.getFlowAngle p x y width height)
                          (SketchIcon.stepSize p))
                 (SketchIcon.traceLine p startX startY width height))
  /\ (forall (M : MathObj float) (p : ExportIcon.Params)
             (startX startY width height : float),
         Chained (advance (fun x y => ExportIcon.getFlowAngle p x y width height)
                          (ExportIcon.stepSize p))
                 (ExportIcon.traceLine p startX startY width height)).
Proof.
  split; [|split; [|split]]; intros; intros i q q' Hq Hq';
    eapply flowLoop_chain; eassumption.
Qed.

(** X2, the step budget only truncates: in each of the four tracers, the
    polyline traced with [lineLength = n] is the first [n] points of the
    polyline traced with any larger [lineLength], the rest of the table and
    the arguments being the same. *)
Theorem trace_budget_prefix :
  (forall (num : Type) (N : Number num) (M : MathObj num) (L : NoiseLib num)
          (p : FlowField.Params num) (n : nat)
          (startX startY width height margin : num),
      (n <= FlowField.lineLength p)%nat ->
      FlowField.traceFlowLine (flowFieldWithLength n p) startX startY width height margin
      = firstn n (FlowField.traceFlowLine p startX startY width height margin))
  /\ (forall (M : MathObj float) (L : NoiseLib float) (p : Lightfast.Params) (n : nat)
             (startX startY width height : float),
         (n <= Lightfast.lineLength p)%nat ->
         Lightfast.traceFlowLine (lightfastWithLength n p) startX startY width height
         = firstn n (Lightfast.traceFlowLine p startX startY width height))
  /\ (forall (M : MathObj float) (L : NoiseLib float) (p : SketchIcon.Params) (n : nat)
             (startX startY width height : float),
         (n <= SketchIcon.lineLength p)%nat ->
         SketchIcon.traceLine (sketchIconWithLength n p) startX startY width height
         = firstn n (SketchIcon.traceLine p startX startY width height))
  /\ (forall (M : MathObj float) (p : ExportIcon.Params) (n : nat)
             (startX startY width height : float),
         (n <= ExportIcon.lineLength p)%nat ->
         ExportIcon.traceLine (exportIconWithLength n p) startX startY width height
         = firstn n (ExportIcon.traceLine p startX startY width height)).
Proof.
  split; [|split; [|split]]; intros.
  - unfold FlowField.traceFlowLine.
    rewrite <- (flowLoop_prefix _ _ _ (n := n)) by assumption. reflexivity.
  - unfold Lightfast.traceFlowLine.
    rewrite <- (flowLoop_prefix _ _ _ (n := n)) by assumption. reflexivity.
  - unfold SketchIcon.traceLine.
    rewrite <- (flowLoop_prefix _ _ _ (n := n)) by assumption. reflexivity.
  - unfold ExportIcon.traceLine.
    rewrite <- (flowLoop_prefix _ _ _ (n := n)) by assumption. reflexivity.
Qed.

Lemma trace_budget_prefix_witness :
  FlowField.traceFlowLine (M := pinnedMath) (L := quietNoise)
    (flowFieldWithLength 2 straightParams) 0%float 5%float 10%float 10%float 0%float
  = firstn 2 straightTrace.
Proof.
  destruct trace_budget_prefix as [H _].
  apply (H float float_Number pinnedMath quietNoise straightParams 2%nat).
  vm_compute. lia.
Defined.

(** X3, a trace can be resumed: in each of the four tracers, a polyline
    that stopped short of its budget, or whose advance from the last point
    leaves the region, is unchanged by a larger budget; a polyline that
    used its whole budget [n] and whose advance from the last point stays
    inside is continued, under the budget [n + m], by the polyline traced
    with budget [m] from that advance. *)
Theorem trace_resumable :
  (forall (num : Type) (N : Number num) (M : MathObj num) (L : NoiseLib num)
          (p : FlowField.Params num) (width height margin : num),
      Resumable (fun n x y =>
                   FlowField.traceFlowLine (flowFieldWithLength n p) x y width height margin)
                (advance (fun x y => FlowField.getFlowAngle p x y num_zero)
                         (FlowField.stepSize p))
                (exits (FlowField.outOfBounds width height margin)))
  /\ (forall (M : MathObj float) (L : NoiseLib float) (p : Lightfast.Params)
             (width height : float),
         Resumable (fun n x y =>
                      Lightfast.traceFlowLine (lightfastWithLength n p) x y width height)
                   (advance (fun x y => Lightfast.getFlowAngle p x y width height)
                            (Lightfast.stepSize p))
                   (exits (Lightfast.outOfBounds p width height)))
  /\ (forall (M : MathObj float) (L : NoiseLib float) (p : SketchIcon.Params)
             (width height : float),
         Resumable (fun n x y =>
                      SketchIcon.traceLine (sketchIconWithLength n p) x y width height)
                   (advance (fun x y => SketchIcon.getFlowAngle p x y width height)
                            (SketchIcon.stepSize p))
                   (exits (SketchIcon.outOfBounds p width height)))
  /\ (forall (M : MathObj float) (p : ExportIcon.Params) (width height : float),
         Resumable (fun n x y =>
                      ExportIcon.traceLine (exportIconWithLength n p) x y width height)
                   (advance (fun x y => ExportIcon.getFlowAngle p x y width height)
                            (ExportIcon.stepSize p))
                   (exits (ExportIcon.outOfBounds p width height))).
Proof.
  split; [|split; [|split]]; intros.
  - exact (flowLoop_resumable (fun x y => FlowField.getFlowAngle p x y num_zero)
             (FlowField.stepSize p) (FlowField.outOfBounds width height margin)).
  - exact (flowLoop_resumable (fun x y => Lightfast.getFlowAngle p x y width height)
             (Lightfast.stepSize p) (Lightfast.outOfBounds p width height)).
  - exact (flowLoop_resumable (fun x y => SketchIcon.getFlowAngle p x y width height)
             (SketchIcon.stepSize p) (SketchIcon.outOfBounds p width height)).
  - exact (flowLoop_resumable (fun x y => ExportIcon.getFlowAngle p x y width height)
             (ExportIcon.stepSize p) (ExportIcon.outOfBounds p width height)).
Qed.

Lemma trace_resumable_witness :
  FlowField.traceFlowLine (M := pinnedMath) (L := quietNoise)
    (flowFieldWithLength (2 + 1) straightParams) 0%float 5%float 10%float 10%float 0%float
  = FlowField.traceFlowLine (M := pinnedMath) (L := quietNoise)
      (flowFieldWithLength 2 straightParams) 0%float 5%float 10%float 10%float 0%float
    ++ FlowField.traceFlowLine (M := pinnedMath) (L := quietNoise)
         (flowFieldWithLength 1 straightParams) 10%float 5%float 10%float 10%float 0%float.
Proof.
  destruct trace_resumable as [H _].
  destruct (H float float_Number pinnedMath quietNoise straightParams
              10%float 10%float 0%float 2%nat 1%nat 0%float 5%float) as [_ Hfull].
  specialize (Hfull (mkPoint 5 5)%float).
  exact (Hfull eq_refl eq_refl).
Defined.

(** X4, boundary containment for the two icon tracers (sketch-icon.js and
    export-icon.js): when the start passes the tracer's bounds test, every
    point of the polyline passes it; and with the region read as "each
    coordinate between [margin] and [width - margin], resp.
    [height - margin]", from a start within the region every point whose
    coordinates are numbers lies within the region. *)
Theorem icon_trace_containment :
  (forall (M : MathObj float) (L : NoiseLib float) (p : SketchIcon.Params)
          (startX startY width height : float),
      (SketchIcon.outOfBounds p width height startX startY = false ->
       Forall (fun q => SketchIcon.outOfBounds p width height (px q) (py q) = false)
              (SketchIcon.traceLine p startX startY width height))
      /\ (withinRegion (width * SketchIcon.margin p) (width - width * SketchIcon.margin p)
                       (width * SketchIcon.margin p) (height - width * SketchIcon.margin p)
                       startX startY = true ->
          Forall (fun q => is_nan (px q) = false -> is_nan (py q) = false ->
                           withinRegion (width * SketchIcon.margin p)
                                        (width - width * SketchIcon.margin p)
                                        (width * SketchIcon.margin p)
                                        (height - width * SketchIcon.margin p)
                                        (px q) (py q) = true)
                 (SketchIcon.traceLine p startX startY width height)))%float
  /\ (forall (M : MathObj float) (p : ExportIcon.Params)
             (startX startY width height : float),
         (ExportIcon.outOfBounds p width height startX startY = false ->
          Forall (fun q => ExportIcon.outOfBounds p width height (px q) (py q) = false)
                 (ExportIcon.traceLine p startX startY width height))
         /\ (withinRegion (width * ExportIcon.margin p) (width - width * ExportIcon.margin p)
                          (width * ExportIcon.margin p) (height - width * ExportIcon.margin p)
                          startX startY = true ->
             Forall (fun q => is_nan (px q) = false -> is_nan (py q) = false ->
                              withinRegion (width * ExportIcon.margin p)
                                           (width - width * ExportIcon.margin p)
                                           (width * ExportIcon.margin p)
                                           (height - width * ExportIcon.margin p)
                                           (px q) (py q) = true)
                    (ExportIcon.traceLine p startX startY width height)))%float.
Proof.
  split; intros; (split; [intros Hstart; apply flowLoop_inside; exact Hstart|]);
    intros Hstart;
    destruct (within_bounds_numbers _ _ _ _ _ _ Hstart) as (Ha & Hb & Hc & Hd);
    (eapply Forall_impl;
     [|apply flowLoop_inside; exact (within_not_outside _ _ _ _ _ _ Hstart)]);
    intros q Hq Hx Hy; now apply not_outside_within.
Qed.

Lemma icon_trace_containment_witness :
  Forall (fun q => ExportIcon.outOfBounds ExportIcon.params 512 512 (px q) (py q) = false)%float
         (ExportIcon.traceLine (M := pinnedMath) ExportIcon.params
            256%float 256%float 512%float 512%float).
Proof.
  destruct icon_trace_containment as [_ H].
  apply (proj1 (H pinnedMath ExportIcon.params 256 256 512 512)%float).
  vm_compute. reflexivity.
Defined.

(** X5, the tracer of sketch-icon.js obeys the laws of the other three:
    its polyline has at most [lineLength] points, the advance from every
    point but the last stays inside, a shorter polyline ends where the
    cursor left, and with a budget of at least one step the polyline starts
    with the start, alone when the first advance is outside. *)
Theorem sketch_icon_trace_laws
        (M : MathObj float) (L : NoiseLib float) (p : SketchIcon.Params)
        (startX startY width height : float) :
  LengthLaw (fun x y => SketchIcon.getFlowAngle p x y width height)
            (SketchIcon.stepSize p) (SketchIcon.outOfBounds p width height)
            (SketchIcon.lineLength p)
            (SketchIcon.traceLine p startX startY width height)
  /\ ((1 <= SketchIcon.lineLength p)%nat ->
      StartLaw (fun x y => SketchIcon.getFlowAngle p x y width height)
               (SketchIcon.stepSize p) (SketchIcon.outOfBounds p width height)
               (SketchIcon.lineLength p) startX startY
               (SketchIcon.traceLine p startX startY width height)).
Proof.
  split; [apply flowLoop_law|]. intros H. now apply flowLoop_start.
Qed.

(** ** Not-a-number angles *)

Lemma flowField_outOfBounds_nan (width height margin : float) :
  FlowField.outOfBounds width height margin nan nan = false.
Proof.
  unfold FlowField.outOfBounds. cbn [num_ltb float_Number].
  now rewrite !ltb_nan_l, !ltb_nan_r.
Qed.

Lemma lightfast_outOfBounds_nan (p : Lightfast.Params) (width height : float) :
  Lightfast.outOfBounds p width height nan nan = false.
Proof.
  unfold Lightfast.outOfBounds. now rewrite !ltb_nan_l, !ltb_nan_r.
Qed.

Lemma sketchIcon_outOfBounds_nan (p : SketchIcon.Params) (width height : float) :
  SketchIcon.outOfBounds p width height nan nan = false.
Proof.
  unfold SketchIcon.outOfBounds. now rewrite !ltb_nan_l, !ltb_nan_r.
Qed.

Lemma exportIcon_outOfBounds_nan (p : ExportIcon.Params) (width height : float) :
  ExportIcon.outOfBounds p width height nan nan = false.
Proof.
  unfold ExportIcon.outOfBounds. now rewrite !ltb_nan_l, !ltb_nan_r.
Qed.



(** X7, no octave, no angle: when [flowOctaves] is 0 the octave loop does
    not run, the normalisation divides 0 by 0, and [getFlowAngle] is NaN at
    every point and time, whatever the noise library, the scale and the
    amplitude; a trace under such a table is its start followed by NaN
    points up to the budget (cosine and sine of NaN being NaN). *)
Theorem zero_octaves_no_angle
        (M : MathObj float) (L : NoiseLib float) (p : FlowField.Params float) :
  FlowField.flowOctaves p = 0%nat ->
  (forall x y t, FlowField.getFlowAngle p x y t = nan)
  /\ (forall n startX startY width height margin,
         Math_cos nan = nan -> Math_sin nan = nan ->
         FlowField.lineLength p = S n ->
         FlowField.traceFlowLine p startX startY width height margin
         = mkPoint startX startY :: repeat (mkPoint nan nan) n).
Proof.
  intros Hk.
  assert (Hangle : forall x y t, FlowField.getFlowAngle p x y t = nan).
  { intros x y t. unfold FlowField.getFlowAngle. rewrite Hk.
    cbn [FlowField.octaveLoop num_zero num_one num_div num_mul float_Number].
    change (0 / 0)%float with nan. apply mul_nan_l. }
  split; [exact Hangle|].
  intros n startX startY width height margin Hcos Hsin Hlen.
  unfold FlowField.traceFlowLine. rewrite Hlen.
  apply flowLoop_nan_angle; auto using flowField_outOfBounds_nan.
Qed.

Lemma zero_octaves_no_angle_witness :
  FlowField.getFlowAngle (L := quietNoise) noOctaveParams 300%float 300%float 0%float = nan.
Proof.
  apply (proj1 (zero_octaves_no_angle pinnedMath quietNoise noOctaveParams eq_refl)).
Defined.

(** ** Painting a polyline *)

(** The loop of [drawSmoothCurve] reads [points[i]] and [points[i + 1]]
    for [i] up to [length - 2]: all inside the array. *)
Lemma curveSegments_some (points : list (Point float)) (n : nat) : forall i,
  (i + n < length points)%nat ->
  exists segments, curveSegments points n i = Some segments /\ length segments = n.
Proof.
  induction n as [|n IH]; intros i Hlt; [exists []; split; reflexivity|].
  cbn [curveSegments].
  destruct (nth_error points i) as [a|] eqn:Ea;
    [|apply nth_error_None in Ea; lia].
  destruct (nth_error points (i + 1)) as [b|] eqn:Eb;
    [|apply nth_error_None in Eb; lia].
  destruct (IH (S i)) as (rest & -> & Hlen); [lia|].
  eexists. split; [reflexivity|]. cbn [length]. now rewrite Hlen.
Qed.

(** X8, [drawSmoothCurve] (export-icon.js, sketch-icon.js).  With fewer
    than two points it makes no call on the context.  With two points or
    more it never reads outside the array, and its calls are [beginPath],
    [moveTo] the first point, one path call per further point
    ([length - 1] calls, the last of which ends at the last point), then
    [stroke]. *)
Theorem drawSmoothCurve_calls (points : list (Point float)) :
  ((length points < 2)%nat -> drawSmoothCurve points = Some [])
  /\ ((2 <= length points)%nat ->
      exists first last body final,
        nth_error points 0 = Some first
        /\ nth_error points (length points - 1) = Some last
        /\ drawSmoothCurve points
           = Some (BeginPath :: MoveTo (px first) (py first) :: (body ++ [final]) ++ [Stroke])
        /\ S (length body) = (length points - 1)%nat
        /\ penAfter final = Some last).
Proof.
  split.
  - intros Hlt. unfold drawSmoothCurve.
    destruct (Nat.ltb_spec (length points) 2) as [_|H]; [reflexivity|lia].
  - intros Hle. unfold drawSmoothCurve.
    destruct (Nat.ltb_spec (length points) 2) as [H|_]; [lia|].
    destruct (nth_error points 0) as [first|] eqn:Efirst;
      [|apply nth_error_None in Efirst; lia].
    destruct (nth_error points (length points - 1)) as [last|] eqn:Elast;
      [|apply nth_error_None in Elast; lia].
    destruct (Nat.eqb_spec (length points) 2) as [E2|Hne].
    + rewrite E2 in Elast. cbn [Nat.sub] in Elast. rewrite Elast.
      exists first, last, [], (LineTo (px last) (py last)).
      repeat split. rewrite E2. reflexivity. destruct last; reflexivity.
    + destruct (curveSegments_some points (length points - 1 - 1) 1)
        as (segments & Hseg & Hlen); [lia|].
      rewrite Hseg.
      destruct (nth_error points (length points - 2)) as [secondLast|] eqn:Esl;
        [|apply nth_error_None in Esl; lia].
      exists first, last, segments,
        (QuadraticCurveTo (px secondLast) (py secondLast) (px last) (py last)).
      repeat split. rewrite Hlen. lia. destruct last; reflexivity.
Qed.

Lemma drawSmoothCurve_calls_witness :
  exists first last body final,
    nth_error straightTrace 0 = Some first
    /\ nth_error straightTrace (length straightTrace - 1) = Some last
    /\ drawSmoothCurve straightTrace
       = Some (BeginPath :: MoveTo (px first) (py first) :: (body ++ [final]) ++ [Stroke])
    /\ S (length body) = (length straightTrace - 1)%nat
    /\ penAfter final = Some last.
Proof.
  apply (proj2 (drawSmoothCurve_calls straightTrace)). vm_compute. lia.
Defined.

Lemma prefix_append (s t : string) : String.prefix s (s ++ t) = true.
Proof.
  induction s as [|c s IH]; [destruct t; reflexivity|].
  cbn. destruct (Ascii.ascii_dec c c) as [_|H]; [exact IH|now elim H].
Qed.

Lemma append_empty_r (s : string) : (s ++ "")%string = s.
Proof. induction s as [|c s IH]; [reflexivity|]. cbn. now rewrite IH. Qed.

Lemma append_assoc (s t u : string) : ((s ++ t) ++ u)%string = (s ++ (t ++ u))%string.
Proof. induction s as [|c s IH]; [reflexivity|]. cbn. now rewrite IH. Qed.

(** The pieces [" Q x y xc yc"] of the path data, one per iteration. *)
Lemma pathSegments_some (toFixed : float -> string) (points : list (Point float))
      (n : nat) : forall i,
  (i + n < length points)%nat ->
  exists pieces,
    pathSegments toFixed points n i = Some (String.concat "" pieces)
    /\ length pieces = n
    /\ Forall (fun piece => String.prefix " Q " piece = true) pieces.
Proof.
  induction n as [|n IH]; intros i Hlt.
  - exists []. repeat split. constructor.
  - cbn [pathSegments].
    destruct (nth_error points i) as [a|] eqn:Ea;
      [|apply nth_error_None in Ea; lia].
    destruct (nth_error points (i + 1)) as [b|] eqn:Eb;
      [|apply nth_error_None in Eb; lia].
    destruct (IH (S i)) as (rest & -> & Hlen & Hall); [lia|].
    exists ((" Q " ++ toFixed (px a) ++ " " ++ toFixed (py a) ++ " "
             ++ toFixed ((px a + px b) / 2)%float ++ " "
             ++ toFixed ((py a + py b) / 2)%float)%string :: rest).
    split; [|split; [cbn [length]; now rewrite Hlen|constructor; [apply prefix_append|exact Hall]]].
    f_equal. destruct rest as [|r rest'].
    + cbn [String.concat]. rewrite ?append_assoc, ?append_empty_r. reflexivity.
    + change (String.concat "" ((" Q " ++ toFixed (px a) ++ " " ++ toFixed (py a) ++ " "
               ++ toFixed ((px a + px b) / 2)%float ++ " "
               ++ toFixed ((py a + py b) / 2)%float)%string :: r :: rest'))
        with ((" Q " ++ toFixed (px a) ++ " " ++ toFixed (py a) ++ " "
               ++ toFixed ((px a + px b) / 2)%float ++ " "
               ++ toFixed ((py a + py b) / 2)%float)
              ++ "" ++ String.concat "" (r :: rest'))%string.
      rewrite ?append_assoc. reflexivity.
Qed.

(** X9, [pointsToSVGPath] (sketch-icon.js).  With fewer than two points the
    path data is the empty string.  With two points or more the function
    never reads outside the array, and the path data is ["M x0 y0"] for the
    first point, then [length - 2] pieces that each start with [" Q "], then
    [" L x y"] for the last point, every number printed by [toFixed]. *)
Theorem pointsToSVGPath_shape (toFixed : float -> string) (points : list (Point float)) :
  ((length points < 2)%nat -> pointsToSVGPath toFixed points = Some ""%string)
  /\ ((2 <= length points)%nat ->
      exists first last pieces,
        nth_error points 0 = Some first
        /\ nth_error points (length points - 1) = Some last
        /\ length pieces = (length points - 2)%nat
        /\ Forall (fun piece => String.prefix " Q " piece = true) pieces
        /\ pointsToSVGPath toFixed points
           = Some ("M " ++ toFixed (px first) ++ " " ++ toFixed (py first)
                   ++ String.concat "" pieces
                   ++ " L " ++ toFixed (px last) ++ " " ++ toFixed (py last))%string).
Proof.
  split.
  - intros Hlt. unfold pointsToSVGPath.
    destruct (Nat.ltb_spec (length points) 2) as [_|H]; [reflexivity|lia].
  - intros Hle. unfold pointsToSVGPath.
    destruct (Nat.ltb_spec (length points) 2) as [H|_]; [lia|].
    destruct (nth_error points 0) as [first|] eqn:Efirst;
      [|apply nth_error_None in Efirst; lia].
    destruct (nth_error points (length points - 1)) as [last|] eqn:Elast;
      [|apply nth_error_None in Elast; lia].
    destruct (pathSegments_some toFixed points (length points - 1 - 1) 1)
      as (pieces & Hseg & Hlen & Hall); [lia|].
    rewrite Hseg. exists first, last, pieces.
    repeat split; [lia|exact Hall].
Qed.

Lemma pointsToSVGPath_shape_witness :
  exists first last pieces,
    nth_error straightTrace 0 = Some first
    /\ nth_error straightTrace (length straightTrace - 1) = Some last
    /\ length pieces = (length straightTrace - 2)%nat
    /\ Forall (fun piece => String.prefix " Q " piece = true) pieces
    /\ pointsToSVGPath (fun _ => "0"%string) straightTrace
       = Some ("M " ++ "0" ++ " " ++ "0" ++ String.concat "" pieces
               ++ " L " ++ "0" ++ " " ++ "0")%string.
Proof.
  apply (proj2 (pointsToSVGPath_shape (fun _ => "0"%string) straightTrace)).
  vm_compute. lia.
Defined.

(** The loop of [drawTaperedLine] from index [i] on: it stays inside the
    array, makes eight calls per segment, and its straight segments join
    the points from [points[i]] on, pair by pair. *)
Lemma taperedSegments_some (points : list (Point float)) (color : string)
      (maxWidth opacity : float) (n : nat) : forall i,
  (i + n < length points)%nat ->
  exists calls,
    taperedSegments points color maxWidth opacity n i = Some calls
    /\ length calls = (8 * n)%nat
    /\ strokedSegments calls = firstn n (consecutive (skipn i points)).
Proof.
  induction n as [|n IH]; intros i Hlt.
  - exists []. repeat split.
  - cbn [taperedSegments].
    destruct (nth_error points i) as [a|] eqn:Ea;
      [|apply nth_error_None in Ea; lia].
    destruct (nth_error points (i + 1)) as [b|] eqn:Eb;
      [|apply nth_error_None in Eb; lia].
    destruct (IH (S i)) as (rest & -> & Hlen & Hseg); [lia|].
    eexists. split; [reflexivity|]. split.
    + rewrite length_app, Hlen. cbn [length]. lia.
    + assert (Hskip : skipn i points = a :: b :: skipn (S (S i)) points).
      { clear - Ea Eb. revert points Ea Eb.
        induction i as [|i IHi]; intros points Ea Eb.
        - destruct points as [|a' [|b' rest']]; try discriminate.
          cbn in Ea, Eb. injection Ea as <-. injection Eb as <-. reflexivity.
        - destruct points as [|c rest']; [discriminate|].
          cbn [skipn]. apply IHi; assumption. }
      rewrite Hskip.
      assert (Hskip' : skipn (S i) points = b :: skipn (S (S i)) points).
      { change (S i) with (1 + i)%nat. rewrite <- skipn_skipn, Hskip. reflexivity. }
      rewrite Hskip' in Hseg.
      cbn [consecutive firstn app strokedSegments].
      destruct a as [ax ay], b as [bx byy]. cbn [px py].
      f_equal. exact Hseg.
Qed.

Lemma consecutive_length {A : Type} (l : list A) :
  length (consecutive l) = (length l - 1)%nat.
Proof.
  induction l as [|a [|b rest] IH]; try reflexivity.
  change (consecutive (a :: b :: rest)) with ((a, b) :: consecutive (b :: rest)).
  cbn [length] in *. rewrite IH. lia.
Qed.

Lemma strokedSegments_alpha (calls : list CanvasCall) (alpha : float) :
  strokedSegments (calls ++ [SetGlobalAlpha alpha]) = strokedSegments calls.
Proof.
  induction calls as [|c rest IH]; [reflexivity|].
  destruct c; try exact IH.
  destruct rest as [|c' rest']; [reflexivity|].
  destruct c'; cbn [app strokedSegments] in *; try exact IH.
  f_equal. exact IH.
Qed.

(** X10, [drawTaperedLine] (sketch-lightfast.js).  With fewer than two
    points it makes no call on the context (the alpha is not reset).  With
    two points or more it never reads outside the array; it makes eight
    calls per segment and a last one that sets [globalAlpha] back to 1; and
    the straight segments it strokes are exactly the segments between
    consecutive points, in order. *)
Theorem drawTaperedLine_calls (points : list (Point float)) (color : string)
        (maxWidth opacity : float) :
  ((length points < 2)%nat -> drawTaperedLine points color maxWidth opacity = Some [])
  /\ ((2 <= length points)%nat ->
      exists calls,
        drawTaperedLine points color maxWidth opacity
        = Some (calls ++ [SetGlobalAlpha 1%float])
        /\ length calls = (8 * (length points - 1))%nat
        /\ strokedSegments (calls ++ [SetGlobalAlpha 1%float]) = consecutive points).
Proof.
  split.
  - intros Hlt. unfold drawTaperedLine.
    destruct (Nat.ltb_spec (length points) 2) as [_|H]; [reflexivity|lia].
  - intros Hle. unfold drawTaperedLine.
    destruct (Nat.ltb_spec (length points) 2) as [H|_]; [lia|].
    destruct (taperedSegments_some points color maxWidth opacity (length points - 1) 0)
      as (calls & -> & Hlen & Hseg); [lia|].
    exists calls. split; [reflexivity|]. split; [exact Hlen|].
    cbn [skipn] in Hseg.
    rewrite strokedSegments_alpha, Hseg.
    apply firstn_all2. rewrite consecutive_length. lia.
Qed.

Lemma drawTaperedLine_calls_witness :
  exists calls,
    drawTaperedLine straightTrace "#ffffff" 1.5%float 0.8%float
    = Some (calls ++ [SetGlobalAlpha 1%float])
    /\ length calls = (8 * (length straightTrace - 1))%nat
    /\ strokedSegments (calls ++ [SetGlobalAlpha 1%float]) = consecutive straightTrace.
Proof.
  apply (proj2 (drawTaperedLine_calls straightTrace "#ffffff" 1.5%float 0.8%float)).
  vm_compute. lia.
Defined.

(** ** Spawn generators: rings, patterns and the seed *)

Lemma forPush_Forall {St A : Type} (P : A -> Prop) (body : nat -> State St A) :
  (forall i s, P (fst (body i s))) ->
  forall n i s, Forall P (fst (forPush n i body s)).
Proof.
  intros Hbody. induction n as [|n IH]; intros i s; [constructor|].
  cbn [forPush]. unfold bind at 1. specialize (Hbody i s).
  destruct (body i s) as [a s1]. unfold bind at 1. specialize (IH (S i) s1).
  destruct (forPush n (S i) body s1) as [rest s2]. cbn in *. now constructor.
Qed.

Lemma forPush_state {St A : Type} (body : nat -> State St A) (step : St -> St) :
  (forall i s, snd (body i s) = step s) ->
  forall n i s, snd (forPush n i body s) = Nat.iter n step s.
Proof.
  intros Hbody. induction n as [|n IH]; intros i s; [reflexivity|].
  cbn [forPush]. unfold bind at 1. specialize (Hbody i s).
  destruct (body i s) as [a s1]. unfold bind at 1. specialize (IH (S i) s1).
  destruct (forPush n (S i) body s1) as [rest s2]. cbn [ret snd] in *.
  rewrite IH, Hbody. symmetry. apply Nat.iter_succ_r.
Qed.

Lemma Forall_firstn_keeps {A : Type} (P : A -> Prop) (n : nat) : forall l,
  Forall P l -> Forall P (firstn n l).
Proof.
  induction n as [|n IH]; intros l Hl; [constructor|].
  destruct Hl as [|a l Ha Hl]; [constructor|].
  cbn [firstn]. constructor; [exact Ha|now apply IH].
Qed.

Section RingIndices.
Context {M : MathObj float} {rng : Type} {R : RandomLib rng}.

Import Lightfast.

Lemma ringParticles_ring (count : nat) (maxRadius centerX centerY ppr : float)
      (r : nat) (positions : list RingPoint) (s : rng) :
  Forall (fun rp => ring rp = r)
         (fst (ringParticles count maxRadius centerX centerY ppr r positions s)).
Proof.
  unfold ringParticles. apply forPush_Forall. intros i s0.
  unfold bind. destruct (random_gaussian 0 0.1 s0) as [g s1].
  destruct (random_gaussian 0 _ s1) as [jitter s2]. reflexivity.
Qed.

Lemma ringLoop_ring (n count : nat) (maxRadius centerX centerY ppr : float) :
  forall r positions s,
    Forall (fun rp => (ring rp < r + n)%nat) positions ->
    Forall (fun rp => (ring rp < r + n)%nat)
           (fst (ringLoop n count maxRadius centerX centerY ppr r positions s)).
Proof.
  induction n as [|n IH]; intros r positions s Hpos; [exact Hpos|].
  cbn [ringLoop]. unfold bind at 1.
  pose proof (@ringParticles_ring count maxRadius centerX centerY ppr r positions s) as Hnew.
  destruct (ringParticles count maxRadius centerX centerY ppr r positions s) as [new s1].
  cbn [fst] in Hnew.
  replace (r + S n)%nat with (S r + n)%nat by lia.
  apply IH. apply Forall_app. split.
  - eapply Forall_impl; [|exact Hpos]. cbn beta. intros; lia.
  - eapply Forall_impl; [|exact Hnew]. cbn beta. intros; lia.
Qed.

Lemma burst_ring_bound (p : Params) (width height : float) (count : nat) (s : rng) :
  Forall (fun rp => (ring rp <= 11)%nat)
         (fst (generateSpawnPositions p width height count s)).
Proof.
  unfold generateSpawnPositions.
  destruct (String.eqb (spawnPattern p) "radial-burst").
  - unfold bind at 1.
    pose proof (@ringLoop_ring 12 count
      (Math_min width height * (0.5 - margin p))%float (width / 2)%float
      (height / 2)%float (Math_floor (of_nat count / 12)%float) 0 [] s
      (Forall_nil _)) as Hrings.
    destruct (ringLoop 12 count _ _ _ _ 0 [] s) as [positions s1].
    cbn [fst] in Hrings. unfold bind at 1.
    match goal with |- context [forPush ?n 0 ?b s1] =>
      pose proof (forPush_Forall (fun rp => ring rp = 0%nat) b) as Hextra;
      specialize (Hextra (fun i s0 =>
        ltac:(unfold bind; destruct (random_value s0) as [v1 s2];
              destruct (random_value s2) as [v2 s3]; reflexivity)) n 0%nat s1);
      destruct (forPush n 0 b s1) as [extra s2]
    end.
    cbn [fst ret] in *. apply Forall_firstn_keeps, Forall_app. split.
    + eapply Forall_impl; [|exact Hrings]. cbn beta. intros; lia.
    + eapply Forall_impl; [|exact Hextra]. cbn beta. intros ? ->. lia.
  - cbn [ret fst]. rewrite firstn_nil. constructor.
Qed.

End RingIndices.

(** X11, ring indices of the radial burst (sketch-lightfast.js): every
    position returned by [generateSpawnPositions] carries a ring index
    between 0 and 11, whatever the count, the canvas and the random
    library. *)
Theorem radial_burst_ring_indices
        (M : MathObj float) (rng : Type) (R : RandomLib rng)
        (p : Lightfast.Params) (width height : float) (count : nat) (s : rng) :
  Forall (fun rp => (Lightfast.ring rp <= 11)%nat)
         (fst (Lightfast.generateSpawnPositions p width height count s)).
Proof. apply burst_ring_bound. Qed.

(** X12, a pattern other than ['radial-burst'] in sketch-lightfast.js:
    [generateSpawnPositions] returns no position, whatever the count, and
    draws no random number (the generator is left as it was). *)
Theorem lightfast_other_pattern_is_empty
        (M : MathObj float) (rng : Type) (R : RandomLib rng)
        (p : Lightfast.Params) (width height : float) (count : nat) (s : rng) :
  Lightfast.spawnPattern p <> "radial-burst"%string ->
  Lightfast.generateSpawnPositions p width height count s = ([], s).
Proof.
  intros Hpat. unfold Lightfast.generateSpawnPositions.
  apply String.eqb_neq in Hpat. rewrite Hpat.
  unfold ret. now rewrite firstn_nil.
Qed.

(** The table of sketch-lightfast.js with the pattern of the flow-field
    sketch. *)
Lemma lightfast_other_pattern_is_empty_witness :
  Lightfast.generateSpawnPositions (M := pinnedMath) (R := lcgRandom)
    {| Lightfast.lineCount := 600; Lightfast.lineLength := 100;
       Lightfast.stepSize := 3%float; Lightfast.noiseScale := 0.0015%float;
       Lightfast.noiseAmplitude := (Math_PI * 1.5)%float;
       Lightfast.margin := 0.08%float; Lightfast.spawnPattern := "random";
       Lightfast.radialInfluence := 0.4%float; Lightfast.spiralTwist := 0.2%float |}
    1024%float 1024%float 600 ExportIcon.initialSeed
  = ([], ExportIcon.initialSeed).
Proof.
  apply lightfast_other_pattern_is_empty. discriminate.
Defined.

Lemma exportIcon_spawn_seed (M : MathObj float) (p : ExportIcon.Params)
      (width height : float) (s : ExportIcon.Seed) :
  snd (ExportIcon.getSpawnPoints p width height s)
  = Nat.iter (ExportIcon.lineCount p) nextSeed s.
Proof.
  unfold ExportIcon.getSpawnPoints. apply forPush_state. intros i s0. reflexivity.
Qed.

(** X13, the seed after [getSpawnPoints] (export-icon.js): the generator
    is stepped exactly once per line, so the seed left behind is the
    [lineCount]-th iterate of the generator's step on the seed found, for
    every canvas size and every [Math] object. *)
Theorem spawn_points_step_the_seed
        (M : MathObj float) (p : ExportIcon.Params) (width height : float)
        (s : ExportIcon.Seed) :
  snd (ExportIcon.getSpawnPoints p width height s)
  = Nat.iter (ExportIcon.lineCount p) nextSeed s.
Proof. apply exportIcon_spawn_seed. Qed.

(** ** The render pass of export-icon.js *)

(** X14, what a render pass hands to the painter (export-icon.js,
    [renderIcon] and [generateSVG]): at most [lineCount] polylines; each has
    at least two and at most [lineLength] points and starts at one of the
    spawn points drawn from the reset seed; and the seed is left at the
    [lineCount]-th iterate of the generator's step on the reset seed,
    whatever it was before. *)
Theorem render_lines_shape
        (M : MathObj float) (p : ExportIcon.Params) (s : ExportIcon.Seed) :
  (length (fst (ExportIcon.renderLines p s)) <= ExportIcon.lineCount p)%nat
  /\ Forall (fun t => (2 <= length t <= ExportIcon.lineLength p)%nat
                      /\ exists spawn,
                           In spawn (fst (ExportIcon.getSpawnPoints p 512 512
                                            ExportIcon.initialSeed))
                           /\ hd_error t = Some spawn)
            (fst (ExportIcon.renderLines p s))
  /\ snd (ExportIcon.renderLines p s)
     = Nat.iter (ExportIcon.lineCount p) nextSeed ExportIcon.initialSeed.
Proof.
  unfold ExportIcon.renderLines, bind, ExportIcon.resetSeed.
  pose proof (forPush_length
                (fun i =>
                   v <- ExportIcon.seededRandom ;;
                   ret (mkPoint
                          (512 / 2 + Math_cos (- Math_PI * 0.6
                                               + (of_nat i / of_nat (ExportIcon.lineCount p))
                                                 * Math_PI * 2)
                                     * (512 * 0.15 * (0.8 + v * 0.4)))%float
                          (512 / 2 + Math_sin (- Math_PI * 0.6
                                               + (of_nat i / of_nat (ExportIcon.lineCount p))
                                                 * Math_PI * 2)
                                     * (512 * 0.15 * (0.8 + v * 0.4)))%float))
                (ExportIcon.lineCount p) 0 ExportIcon.initialSeed) as Hcount.
  change (forPush _ 0 _ ExportIcon.initialSeed)
    with (ExportIcon.getSpawnPoints p 512 512 ExportIcon.initialSeed) in Hcount.
  pose proof (exportIcon_spawn_seed M p 512 512 ExportIcon.initialSeed) as Hseed.
  destruct (ExportIcon.getSpawnPoints p 512 512 ExportIcon.initialSeed)
    as [spawns s1].
  cbn [fst snd ret] in *. split; [|split; [|exact Hseed]].
  - etransitivity; [apply filter_length_le|]. now rewrite length_map, Hcount.
  - apply Forall_forall. intros t Ht. apply filter_In in Ht.
    destruct Ht as [Ht Hlen]. apply in_map_iff in Ht.
    destruct Ht as (spawn & <- & Hspawn). apply Nat.leb_le in Hlen.
    split; [split; [exact Hlen|apply flowLoop_length]|].
    exists spawn. split; [exact Hspawn|].
    unfold ExportIcon.traceLine in *.
    destruct (ExportIcon.lineLength p) as [|n]; [cbn in Hlen; lia|].
    rewrite flowLoop_unfold. destruct spawn; reflexivity.
Qed.

Lemma drawSmoothCurve_total (points : list (Point float)) :
  exists calls, drawSmoothCurve points = Some calls.
Proof.
  unfold drawSmoothCurve.
  destruct (Nat.ltb_spec (length points) 2) as [_|Hle]; [eauto|].
  destruct (nth_error points 0) as [first|] eqn:Efirst;
    [|apply nth_error_None in Efirst; lia].
  destruct (Nat.eqb_spec (length points) 2) as [E2|Hne].
  - destruct (nth_error points 1) as [second|] eqn:E1;
      [eauto|apply nth_error_None in E1; lia].
  - destruct (curveSegments_some points (length points - 1 - 1) 1)
      as (segments & -> & _); [lia|].
    destruct (nth_error points (length points - 1)) as [last|] eqn:Elast;
      [|apply nth_error_None in Elast; lia].
    destruct (nth_error points (length points - 2)) as [secondLast|] eqn:Esl;
      [eauto|apply nth_error_None in Esl; lia].
Qed.

Lemma drawCurves_total (lines : list (Polyline float)) :
  exists calls, drawCurves lines = Some calls.
Proof.
  induction lines as [|points rest (more & IH)]; [now exists []|].
  cbn [drawCurves]. rewrite IH.
  destruct (2 <=? length points)%nat; [|eauto].
  destruct (drawSmoothCurve_total points) as (calls & ->). eauto.
Qed.

(** Polylines that are too short add no call. *)
Lemma drawCurves_filter (lines : list (Polyline float)) :
  drawCurves (filter (fun points => 2 <=? length points)%nat lines) = drawCurves lines.
Proof.
  induction lines as [|points rest IH]; [reflexivity|].
  cbn [filter drawCurves].
  destruct (2 <=? length points)%nat eqn:E.
  - cbn [drawCurves]. now rewrite E, IH.
  - rewrite IH. now destruct (drawCurves rest).
Qed.

(** X15, [renderIcon] (export-icon.js) draws the same strokes at every
    size: the call never fails on an array access, and there is one list of
    path calls, the curves through the polylines of the render pass in
    design coordinates, such that for every size and every earlier state of
    the seed the calls on the context are the background rectangle and the
    scale for that size, the four stroke settings, and that list. *)
Theorem render_icon_same_strokes
        (M : MathObj float) (p : ExportIcon.Params) (st : IconStyle) :
  exists strokes,
    drawCurves (fst (ExportIcon.renderLines p ExportIcon.initialSeed)) = Some strokes
    /\ forall (size : float) (s : ExportIcon.Seed),
         fst (renderIcon p st size s)
         = Some (iconHeader st size
                 ++ [SetStrokeStyle (strokeColor st);
                     SetLineWidth (512 * strokeWidthRatio st)%float;
                     SetLineCap "round"; SetLineJoin "round"]
                 ++ strokes).
Proof.
  destruct (drawCurves_total (fst (ExportIcon.renderLines p ExportIcon.initialSeed)))
    as (strokes & Hstrokes).
  exists strokes. split; [exact Hstrokes|]. intros size s.
  unfold ExportIcon.renderLines, bind, ExportIcon.resetSeed in Hstrokes.
  unfold renderIcon, bind, ExportIcon.resetSeed.
  destruct (ExportIcon.getSpawnPoints p 512 512 ExportIcon.initialSeed)
    as [spawns s1].
  cbn [fst ret] in *. rewrite drawCurves_filter in Hstrokes. now rewrite Hstrokes.
Qed.

(** ** The stripes of the banner *)

Section BannerFacts.
Variable p : Banner.Params.

Import Banner.

(** One iteration of the loop of [generateStripes]: past the zone it
    returns; inside the zone it pushes one stripe at the current [x], of
    full height, whose colour is looked up in [stripeColors], or in
    [accentColors] when more than five stripes are there already. *)
Lemma stripeLoop_step (remaining : nat) (x0 : float) (stripes : list Stripe) (s : Seed) :
  ((x0 <? WIDTH * stripeZoneWidth p)%float = false
   /\ stripeLoop p (S remaining) x0 stripes s = (stripes, s))
  \/ ((x0 <? WIDTH * stripeZoneWidth p)%float = true
      /\ exists stripe x1 s1,
           stripeLoop p (S remaining) x0 stripes s
           = stripeLoop p remaining x1 (stripes ++ [stripe]) s1
           /\ x stripe = x0 /\ yStart stripe = 0%float /\ yEnd stripe = HEIGHT
           /\ (exists index,
                  color stripe = arrayGet (stripeColors p) index
                  \/ ((5 < length stripes)%nat
                      /\ color stripe = arrayGet (accentColors p) index))).
Proof.
  cbn [stripeLoop].
  destruct (x0 <? WIDTH * stripeZoneWidth p)%float; [right|left; now split].
  split; [reflexivity|]. unfold bind, ret.
  repeat match goal with
         | |- context [random ?s0] =>
             is_var s0; destruct (random s0) as [? ?]
         | |- context [if (?a <? ?b)%float then _ else _] =>
             destruct (a <? b)%float
         | |- context [if (?a <? ?b)%float && ?c then _ else _] =>
             destruct (a <? b)%float; cbn [andb]
         | |- context [if (5 <? length stripes)%nat then _ else _] =>
             destruct (Nat.ltb_spec 5 (length stripes))
         end;
    (eexists; eexists; eexists; split; [reflexivity|];
     cbn [x yStart yEnd color]; repeat split; eexists;
     first [left; reflexivity | right; split; [assumption|reflexivity]]).
Qed.

Lemma stripeLoop_invariant (remaining : nat) : forall x0 stripes s,
  exists new,
    fst (stripeLoop p remaining x0 stripes s) = stripes ++ new
    /\ (length new <= remaining)%nat
    /\ Forall (stripeInZone p) new
    /\ (forall k st, nth_error new k = Some st ->
        exists index,
          color st = arrayGet (stripeColors p) index
          \/ ((5 < length stripes + k)%nat
              /\ color st = arrayGet (accentColors p) index))
    /\ ((0 < remaining)%nat -> (x0 <? WIDTH * stripeZoneWidth p)%float = true ->
        exists st rest, new = st :: rest /\ x st = x0).
Proof.
  induction remaining as [|remaining IH]; intros x0 stripes s.
  - exists []. cbn [stripeLoop ret fst]. rewrite app_nil_r.
    split; [reflexivity|]. split; [cbn [length]; lia|]. split; [constructor|].
    split.
    + intros k st Hk. destruct k; discriminate Hk.
    + intros H. inversion H.
  - destruct (stripeLoop_step remaining x0 stripes s)
      as [(Hout & ->)|(Hin & stripe & x1 & s1 & -> & Hx & Hy0 & Hy1 & Hcolor)].
    + exists []. cbn [fst]. rewrite app_nil_r.
      split; [reflexivity|]. split; [cbn [length]; lia|]. split; [constructor|].
      split.
      * intros k st Hk. destruct k; discriminate Hk.
      * intros _ H. rewrite H in Hout. discriminate Hout.
    + destruct (IH x1 (stripes ++ [stripe]) s1) as (new & -> & Hlen & Hzone & Hcol & _).
      exists (stripe :: new). rewrite <- app_assoc. cbn [app].
      split; [reflexivity|]. split; [cbn [length]; lia|].
      split; [constructor; [|exact Hzone]; unfold stripeInZone; rewrite Hx; auto|].
      split.
      * intros [|k] st Hk.
        -- cbn in Hk. injection Hk as <-. rewrite Nat.add_0_r. exact Hcolor.
        -- cbn [nth_error] in Hk. destruct (Hcol k st Hk) as (index & [H|[Hgt H]]).
           ++ exists index. now left.
           ++ exists index. right. split; [|exact H].
              rewrite length_app in Hgt. cbn [length] in Hgt. lia.
      * intros _ _. exists stripe, new. now split.
Qed.

End BannerFacts.

Lemma arrayGet_In {A : Type} (l : list A) (index : float) (a : A) :
  arrayGet l index = Some a -> In a l.
Proof.
  unfold arrayGet. destruct (Prim2SF index) as [sg|sg| |sg m e]; try discriminate.
  - apply nth_error_In.
  - destruct sg; [discriminate|].
    destruct (0 <=? e)%Z; [apply nth_error_In|].
    destruct (Z.land (Z.pos m) (Z.ones (- e)) =? 0)%Z; [apply nth_error_In|discriminate].
Qed.

(** X16, the stripes of the banner: [generateStripes] returns at most
    [stripeCount] stripes, and every stripe starts left of the right edge
    of the stripe zone ([x < WIDTH * stripeZoneWidth]) and spans the full
    height, from 0 to [HEIGHT]; this for every table and every seed. *)
Theorem banner_stripes_in_zone (p : Banner.Params) (s : Banner.Seed) :
  (length (fst (Banner.generateStripes p s)) <= Banner.stripeCount p)%nat
  /\ Forall (fun st =>
               (Banner.x st <? Banner.WIDTH * Banner.stripeZoneWidth p)%float = true
               /\ Banner.yStart st = 0%float /\ Banner.yEnd st = Banner.HEIGHT)
            (fst (Banner.generateStripes p s)).
Proof.
  unfold Banner.generateStripes.
  destruct (stripeLoop_invariant p (Banner.stripeCount p) 0%float [] s)
    as (new & -> & Hlen & Hzone & _).
  cbn [app]. split; [exact Hlen|exact Hzone].
Qed.

(** X17, the colours of the banner: a stripe's colour, when the lookup
    gives one, belongs to [stripeColors] or to [accentColors]; and the first
    six stripes take theirs from [stripeColors], since an accent needs more
    than five stripes before it. *)
Theorem banner_stripe_colours (p : Banner.Params) (s : Banner.Seed) :
  forall k st c,
    nth_error (fst (Banner.generateStripes p s)) k = Some st ->
    Banner.color st = Some c ->
    (In c (Banner.stripeColors p) \/ In c (Banner.accentColors p))
    /\ ((k <= 5)%nat -> In c (Banner.stripeColors p)).
Proof.
  intros k st c Hk Hc. revert Hk. unfold Banner.generateStripes.
  destruct (stripeLoop_invariant p (Banner.stripeCount p) 0%float [] s)
    as (new & -> & _ & _ & Hcol & _).
  cbn [app length Nat.add]. intros Hk.
  destruct (Hcol k st Hk) as (index & [H|[Hgt H]]); rewrite Hc in H; symmetry in H;
    apply arrayGet_In in H.
  - split; [now left|now intros _].
  - split; [now right|]. intros Hle. cbn [length Nat.add] in Hgt. lia.
Qed.

Lemma banner_stripe_colours_witness :
  (In "#707070"%string (Banner.stripeColors Banner.params)
   \/ In "#707070"%string (Banner.accentColors Banner.params))
  /\ ((0 <= 5)%nat -> In "#707070"%string (Banner.stripeColors Banner.params)).
Proof.
  destruct (fst (Banner.generateStripes Banner.params 42%float)) as [|st rest] eqn:E;
    [vm_compute in E; discriminate E|].
  apply (banner_stripe_colours Banner.params 42%float 0 (st := st)).
  - rewrite E. reflexivity.
  - vm_compute in E. injection E as <- _. reflexivity.
Defined.

(** X18, the banner starts at the left edge: with a stripe count of at
    least one and a stripe zone of positive width, the first stripe of
    [generateStripes] is at [x = 0]. *)
Theorem banner_first_stripe_at_left_edge (p : Banner.Params) (s : Banner.Seed) :
  (1 <= Banner.stripeCount p)%nat ->
  (0 <? Banner.WIDTH * Banner.stripeZoneWidth p)%float = true ->
  exists st rest,
    fst (Banner.generateStripes p s) = st :: rest /\ Banner.x st = 0%float.
Proof.
  intros Hcount Hzone. unfold Banner.generateStripes.
  destruct (stripeLoop_invariant p (Banner.stripeCount p) 0%float [] s)
    as (new & -> & _ & _ & _ & Hfirst).
  cbn [app]. apply Hfirst; [lia|exact Hzone].
Qed.

Lemma banner_first_stripe_at_left_edge_witness :
  exists st rest,
    fst (Banner.generateStripes Banner.params 42%float) = st :: rest
    /\ Banner.x st = 0%float.
Proof.
  apply banner_first_stripe_at_left_edge; [vm_compute; lia|vm_compute; reflexivity].
Defined.
